(** * Batch exports: schedules, runs and backfills

    A shallow embedding of [posthog/batch_exports/service.py]: the Django
    tables it reads and writes, the Temporal client it talks to, and the
    service functions themselves, written in a state-and-exception monad
    so that the effects that survive a raised exception stay visible. *)

From stdpp Require Import base option list strings gmap pretty.

Local Open Scope string_scope.
Local Open Scope list_scope.

(** ** The Python runtime the service relies on *)

Inductive RPCStatus := ALREADY_EXISTS | NOT_FOUND | UNAVAILABLE.

(** The exceptions that can leave the service functions.  [DoesNotExist] and
    [MultipleObjectsReturned] come from [Model.objects.get], [IntegrityError]
    from a violated foreign key, [KeyError] from indexing a [dict],
    [TypeError] from calling a dataclass constructor with keywords that do
    not fit it, [ValueError] from the [raise] of
    [update_batch_export_run_status] and from [datetime.fromisoformat],
    [RPCError] from the Temporal client, and [SynchronousOnlyOperation] from
    Django when the ORM is used inside a running event loop. *)
Inductive Exn :=
  | DoesNotExist (model : string)
  | MultipleObjectsReturned (model : string)
  | IntegrityError (column : string)
  | KeyError (key : string)
  | TypeError
  | ValueError (msg : string)
  | RPCError (status : RPCStatus)
  | SynchronousOnlyOperation.

Inductive result (A : Type) :=
  | Ok (a : A)
  | Raise (e : Exn).
Arguments Ok {A} a.
Arguments Raise {A} e.

Definition result_bind {A B} (r : result A) (k : A → result B) : result B :=
  match r with
  | Ok a => k a
  | Raise e => Raise e
  end.

(** What the module imports and does not define: the [datetime] type with its
    ISO parser, and the Django setting naming the task queue. *)
Class Runtime := {
  datetime : Type;
  fromisoformat : string → result datetime;
  TEMPORAL_TASK_QUEUE : string;
}.

(** A [uuid.UUID] is kept as its canonical text, so that [str] on it is the
    text itself. *)
Definition UUID := string.
Definition str (u : UUID) : string := u.

Inductive PyVal `{Runtime} :=
  | VNone
  | VStr (s : string)
  | VInt (n : Z)
  | VUuid (u : UUID)
  | VDatetime (d : datetime).

(** ** The relational store *)

(** Modelled from the spec: the [BatchExportRun.Status] choices; [models.py]
    is not part of the sources.  The service passes a status as its text
    ([status: str]); here it is the choice itself. *)
Inductive Status := STARTING | RUNNING | COMPLETED | FAILED | CANCELLED.

Definition is_terminal (s : Status) : bool :=
  match s with
  | COMPLETED | FAILED | CANCELLED => true
  | STARTING | RUNNING => false
  end.

Record Team := {
  team_id : Z;
  team_name : string;
}.

Record Destination `{Runtime} := {
  destination_id : UUID;
  destination_type : string;
  destination_config : gmap string PyVal;
}.

Record BatchExport `{Runtime} := {
  be_id : UUID;
  be_team : Team;
  be_destination : Destination;
  be_paused : bool;
}.

(** Modelled from the spec: the columns of a run record, as the two creating
    functions name them.  A column that one of them leaves out is optional;
    the status column defaults to [STARTING]. *)
Record BatchExportRun `{Runtime} := {
  run_pk : UUID;
  run_team : option Z;
  run_batch_export_id : UUID;
  run_workflow_id : option string;
  run_run_id : option string;
  run_status : Status;
  run_data_interval_start : option datetime;
  run_data_interval_end : option datetime;
}.

Record DB `{Runtime} := {
  teams : list Team;
  batch_exports : list BatchExport;
  batch_export_runs : list BatchExportRun;
}.

(** [objects.filter(...).update(...)]: every matching row is rewritten and
    the number of matching rows is returned. *)
Definition qs_update {A} (P : A → Prop) `{∀ x, Decision (P x)}
    (f : A → A) (rows : list A) : nat * list A :=
  (length (filter P rows), (λ r, if decide (P r) then f r else r) <$> rows).

(** [objects.get(...)]: exactly one matching row, or an exception. *)
Definition qs_get {A} (model : string) (P : A → Prop) `{∀ x, Decision (P x)}
    (rows : list A) : result A :=
  match filter P rows with
  | [r] => Ok r
  | [] => Raise (DoesNotExist model)
  | _ => Raise (MultipleObjectsReturned model)
  end.

(** The primary key a new row gets ([uuid4]): one that no row has yet. *)
Definition new_pk `{Runtime} (rows : list BatchExportRun) : UUID :=
  fresh (run_pk <$> rows).

(** ** The workflow engine *)

Record S3BatchExportInputs `{Runtime} := {
  bucket_name : PyVal;
  region : PyVal;
  key_template : PyVal;
  batch_window_size : PyVal;
  s3_team_id : PyVal;
  s3_batch_export_id : PyVal;
  table_name : PyVal;
  file_format : PyVal;
  partition_key : PyVal;
  aws_access_key_id : PyVal;
  aws_secret_access_key : PyVal;
  data_interval_end : PyVal;
}.

(** An instance of one of the registered input dataclasses. *)
Inductive WorkflowInputs `{Runtime} :=
  | S3Inputs (i : S3BatchExportInputs).

Record ScheduleState := {
  state_note : string;
  state_paused : bool;
}.

Record ScheduleActionStartWorkflow `{Runtime} := {
  action_workflow : string;
  action_args : gmap string PyVal;
  action_id : string;
  action_task_queue : string;
  action_search_attributes : gmap string (list PyVal);
}.

Inductive ScheduleSpec := mkScheduleSpec.

Record Schedule `{Runtime} := {
  schedule_action : ScheduleActionStartWorkflow;
  schedule_spec : ScheduleSpec;
  schedule_state : ScheduleState;
}.

Record ScheduleDescription `{Runtime} := {
  description_id : string;
  description_schedule : Schedule;
}.

(** The requests the client sends to the engine. *)
Inductive Request `{Runtime} :=
  | CreateSchedule (id : string) (schedule : Schedule)
      (search_attributes : gmap string (list PyVal))
  | PauseSchedule (id : string) (note : option string)
  | UnpauseSchedule (id : string) (note : option string)
  | DeleteSchedule (id : string)
  | DescribeSchedule (id : string)
  | ExecuteWorkflow (workflow : string) (arg : WorkflowInputs)
      (task_queue : string) (id : string).

(** Modelled from the spec: the engine behind the Temporal client, which is
    an external service.  It keeps the schedules by id, records every request
    it is sent, and may be unreachable. *)
Record Temporal `{Runtime} := {
  schedules : gmap string Schedule;
  requests : list Request;
  available : bool;
}.

Definition sent `{Runtime} (rq : Request) (t : Temporal) : Temporal :=
  {| schedules := schedules t;
     requests := requests t ++ [rq];
     available := available t |}.

Definition with_schedules `{Runtime} (f : gmap string Schedule → gmap string Schedule)
    (t : Temporal) : Temporal :=
  {| schedules := f (schedules t);
     requests := requests t;
     available := available t |}.

Definition set_paused `{Runtime} (b : bool) (note : string) (s : Schedule) : Schedule :=
  {| schedule_action := schedule_action s;
     schedule_spec := schedule_spec s;
     schedule_state := {| state_note := note; state_paused := b |} |}.

(** Modelled from the spec: [CreateSchedule], which fails with
    [ScheduleAlreadyExists] on a conflicting id. *)
Definition engine_create_schedule `{Runtime} (id : string) (schedule : Schedule)
    (search_attributes : gmap string (list PyVal)) (t : Temporal)
    : result unit * Temporal :=
  let t := sent (CreateSchedule id schedule search_attributes) t in
  if negb (available t) then (Raise (RPCError UNAVAILABLE), t)
  else match schedules t !! id with
       | Some _ => (Raise (RPCError ALREADY_EXISTS), t)
       | None => (Ok (), with_schedules (insert id schedule) t)
       end.

(** Modelled from the spec: [PauseSchedule] and [UnpauseSchedule], which fail
    with [ScheduleNotFound] on an unknown id. *)
Definition engine_set_paused `{Runtime} (b : bool) (rq : Request) (id : string)
    (note : string) (t : Temporal) : result unit * Temporal :=
  let t := sent rq t in
  if negb (available t) then (Raise (RPCError UNAVAILABLE), t)
  else match schedules t !! id with
       | None => (Raise (RPCError NOT_FOUND), t)
       | Some s => (Ok (), with_schedules (insert id (set_paused b note s)) t)
       end.

(** Modelled from the spec: [DeleteSchedule]. *)
Definition engine_delete `{Runtime} (id : string) (t : Temporal)
    : result unit * Temporal :=
  let t := sent (DeleteSchedule id) t in
  if negb (available t) then (Raise (RPCError UNAVAILABLE), t)
  else match schedules t !! id with
       | None => (Raise (RPCError NOT_FOUND), t)
       | Some _ => (Ok (), with_schedules (delete id) t)
       end.

(** Modelled from the spec: [DescribeSchedule], the engine's current view of
    the schedule. *)
Definition engine_describe `{Runtime} (id : string) (t : Temporal)
    : result ScheduleDescription * Temporal :=
  let t := sent (DescribeSchedule id) t in
  if negb (available t) then (Raise (RPCError UNAVAILABLE), t)
  else match schedules t !! id with
       | None => (Raise (RPCError NOT_FOUND), t)
       | Some s => (Ok {| description_id := id; description_schedule := s |}, t)
       end.

(** Modelled from the spec: [ExecuteWorkflow], fire and continue. *)
Definition engine_execute_workflow `{Runtime} (workflow : string)
    (arg : WorkflowInputs) (task_queue id : string) (t : Temporal)
    : result unit * Temporal :=
  let t := sent (ExecuteWorkflow workflow arg task_queue id) t in
  if negb (available t) then (Raise (RPCError UNAVAILABLE), t) else (Ok (), t).

(** ** The state-and-exception monad of the service *)

Record World `{Runtime} := {
  db : DB;
  temporal : Temporal;
}.

(** A computation returns a value or raises, and in both cases leaves the
    world it has reached. *)
Definition M `{Runtime} (A : Type) : Type := World → result A * World.

Definition ret `{Runtime} {A} (a : A) : M A := λ w, (Ok a, w).

Definition bind `{Runtime} {A B} (m : M A) (k : A → M B) : M B :=
  λ w, match m w with
       | (Ok a, w') => k a w'
       | (Raise e, w') => (Raise e, w')
       end.

Definition lift `{Runtime} {A} (r : result A) : M A := λ w, (r, w).

Definition raise `{Runtime} {A} (e : Exn) : M A := lift (Raise e).

Notation "'let*' x ':=' m 'in' k" := (bind m (λ x, k))
  (at level 10, x pattern, m at level 100, k at level 200, only parsing).

(** A call of a coroutine function that is not awaited: it builds a coroutine
    object and runs none of its body, so the coroutine is dropped with all it
    would have done. *)
Definition never_awaited `{Runtime} {A} (coroutine : M A) : M unit := ret ().

(** A read of the store. *)
Definition query `{Runtime} {A} (f : DB → result A) : M A :=
  λ w, (f (db w), w).

(** A write to the runs table. *)
Definition write_runs `{Runtime} {A} (f : list BatchExportRun → A * list BatchExportRun)
    : M A :=
  λ w, let '(a, rows) := f (batch_export_runs (db w)) in
       (Ok a, {| db := {| teams := teams (db w);
                          batch_exports := batch_exports (db w);
                          batch_export_runs := rows |};
                 temporal := temporal w |}).

(** A write to the table of export definitions. *)
Definition write_batch_exports `{Runtime} {A}
    (f : list BatchExport → A * list BatchExport) : M A :=
  λ w, let '(a, rows) := f (batch_exports (db w)) in
       (Ok a, {| db := {| teams := teams (db w);
                          batch_exports := rows;
                          batch_export_runs := batch_export_runs (db w) |};
                 temporal := temporal w |}).

(** A call on the Temporal client. *)
Definition rpc `{Runtime} {A} (f : Temporal → result A * Temporal) : M A :=
  λ w, let '(r, t) := f (temporal w) in (r, {| db := db w; temporal := t |}).

(** ** [posthog/batch_exports/service.py] *)

Definition S3_fields : list string :=
  ["bucket_name"; "region"; "key_template"; "batch_window_size"; "team_id";
   "batch_export_id"; "table_name"; "file_format"; "partition_key";
   "aws_access_key_id"; "aws_secret_access_key"; "data_interval_end"].

(** The generated [__init__] of the dataclass, called with keywords only: a
    keyword that is no field, or a missing field without default, is a
    [TypeError]. *)
Definition new_S3BatchExportInputs `{Runtime} (kw : gmap string PyVal)
    : result S3BatchExportInputs :=
  if decide (dom kw ⊆ (list_to_set S3_fields : gset string)) then
    match kw !! "bucket_name", kw !! "region", kw !! "key_template",
          kw !! "batch_window_size", kw !! "team_id", kw !! "batch_export_id" with
    | Some b, Some r, Some k, Some s, Some t, Some e =>
        Ok {| bucket_name := b;
              region := r;
              key_template := k;
              batch_window_size := s;
              s3_team_id := t;
              s3_batch_export_id := e;
              table_name := default (VStr "events") (kw !! "table_name");
              file_format := default (VStr "CSVWithNames") (kw !! "file_format");
              partition_key := default VNone (kw !! "partition_key");
              aws_access_key_id := default VNone (kw !! "aws_access_key_id");
              aws_secret_access_key := default VNone (kw !! "aws_secret_access_key");
              data_interval_end := default VNone (kw !! "data_interval_end") |}
    | _, _, _, _, _, _ => Raise TypeError
    end
  else Raise TypeError.

Definition asdict_S3 `{Runtime} (i : S3BatchExportInputs) : gmap string PyVal :=
  list_to_map
    [("bucket_name", bucket_name i); ("region", region i);
     ("key_template", key_template i);
     ("batch_window_size", batch_window_size i);
     ("team_id", s3_team_id i); ("batch_export_id", s3_batch_export_id i);
     ("table_name", table_name i); ("file_format", file_format i);
     ("partition_key", partition_key i);
     ("aws_access_key_id", aws_access_key_id i);
     ("aws_secret_access_key", aws_secret_access_key i);
     ("data_interval_end", data_interval_end i)].

Definition asdict `{Runtime} (a : WorkflowInputs) : gmap string PyVal :=
  match a with
  | S3Inputs i => asdict_S3 i
  end.

(** A call [f(k1=v1, ..., **mapping)]: a key of [mapping] that repeats one of
    the written keywords is a [TypeError]. *)
Definition keywords `{Runtime} (written : list (string * PyVal))
    (mapping : gmap string PyVal) : result (gmap string PyVal) :=
  if forallb (λ kv, bool_decide (kv.1 ∉ dom mapping)) written
  then Ok (list_to_map written ∪ mapping)
  else Raise TypeError.

(** [d[key]] on a [dict]. *)
Definition getitem {V} (d : gmap string V) (key : string) : result V :=
  match d !! key with
  | Some v => Ok v
  | None => Raise (KeyError key)
  end.

Definition DESTINATION_WORKFLOWS `{Runtime}
    : gmap string (string * (gmap string PyVal → result WorkflowInputs)) :=
  {[ "S3" := ("s3-export",
              λ kw, result_bind (new_S3BatchExportInputs kw) (λ i, Ok (S3Inputs i))) ]}.

(** The functions below take the client [temporal] as their first argument in
    the source; here it is the [temporal] component of the world. *)

Definition create_schedule `{Runtime} (id : string) (schedule : Schedule)
    (search_attributes : gmap string (list PyVal)) : M unit :=
  rpc (engine_create_schedule id schedule search_attributes).

Definition pause_schedule `{Runtime} (schedule_id : string) (note : option string)
    : M unit :=
  rpc (engine_set_paused true (PauseSchedule schedule_id note) schedule_id
         (default "Paused via Python SDK" note)).

Definition unpause_schedule `{Runtime} (schedule_id : string) (note : option string)
    : M unit :=
  rpc (engine_set_paused false (UnpauseSchedule schedule_id note) schedule_id
         (default "Unpaused via Python SDK" note)).

Definition delete_schedule `{Runtime} (schedule_id : string) : M unit :=
  rpc (engine_delete schedule_id).

Definition describe_schedule `{Runtime} (schedule_id : string)
    : M ScheduleDescription :=
  rpc (engine_describe schedule_id).

Definition with_paused `{Runtime} (b : bool) (e : BatchExport) : BatchExport :=
  {| be_id := be_id e;
     be_team := be_team e;
     be_destination := be_destination e;
     be_paused := b |}.

Definition pause_batch_export `{Runtime} (batch_export_id : string)
    (note : option string) : M unit :=
  let* _ := write_batch_exports
              (qs_update (λ e, be_id e = batch_export_id) (with_paused true)) in
  pause_schedule batch_export_id note.

Definition unpause_batch_export `{Runtime} (batch_export_id : string)
    (note : option string) : M unit :=
  let* _ := write_batch_exports
              (qs_update (λ e, be_id e = batch_export_id) (with_paused false)) in
  unpause_schedule batch_export_id note.

(** [BatchExportRun.objects.create(batch_export=..., data_interval_start=...,
    data_interval_end=...)]. *)
Definition BatchExportRun_objects_create `{Runtime} (batch_export : BatchExport)
    (data_interval_start data_interval_end : option datetime) : M BatchExportRun :=
  write_runs (λ rows,
    let run := {| run_pk := new_pk rows;
                  run_team := None;
                  run_batch_export_id := be_id batch_export;
                  run_workflow_id := None;
                  run_run_id := None;
                  run_status := STARTING;
                  run_data_interval_start := data_interval_start;
                  run_data_interval_end := data_interval_end |} in
    (run, rows ++ [run])).

(** [backfill_export] is a plain [def]: it calls the coroutine function
    [temporal.execute_workflow] without [await] and outside [async_to_sync],
    unlike every other call on the client in this file. *)
Definition backfill_export `{Runtime} (batch_export_id : string)
    (start_at end_at : option datetime) : M BatchExportRun :=
  let* batch_export :=
    query (λ d, qs_get "BatchExport" (λ e, be_id e = batch_export_id)
                  (batch_exports d)) in
  let* backfill_run :=
    BatchExportRun_objects_create batch_export start_at end_at in
  let* (workflow, inputs) :=
    lift (getitem DESTINATION_WORKFLOWS
            (destination_type (be_destination batch_export))) in
  let* arg :=
    lift (result_bind
            (keywords [("team_id", VUuid (be_id batch_export));
                       ("batch_export_id", VStr batch_export_id);
                       ("data_interval_end", from_option VDatetime VNone end_at)]
               (destination_config (be_destination batch_export)))
            inputs) in
  let* _ :=
    never_awaited
      (rpc (engine_execute_workflow workflow arg TEMPORAL_TASK_QUEUE
              (str (run_pk backfill_run)))) in
  ret backfill_run.

(** [run.save()] of a new instance: the row is inserted under a new primary
    key, provided the export it refers to exists. *)
Definition BatchExportRun_save `{Runtime} (mk : UUID → BatchExportRun)
    : M BatchExportRun :=
  λ w, let run := mk (new_pk (batch_export_runs (db w))) in
       if decide (run_batch_export_id run ∈ be_id <$> batch_exports (db w))
       then write_runs (λ rows, (run, rows ++ [run])) w
       else (Raise (IntegrityError "batch_export_id"), w).

Definition create_batch_export_run `{Runtime} (team_id' : Z)
    (workflow_id run_id : string) (batch_export_id : UUID)
    (data_interval_start data_interval_end : string) : M BatchExportRun :=
  let* team :=
    query (λ d, qs_get "Team" (λ t, team_id t = team_id') (teams d)) in
  let* interval_start := lift (fromisoformat data_interval_start) in
  let* interval_end := lift (fromisoformat data_interval_end) in
  BatchExportRun_save (λ pk,
    {| run_pk := pk;
       run_team := Some (team_id team);
       run_batch_export_id := batch_export_id;
       run_workflow_id := Some workflow_id;
       run_run_id := Some run_id;
       run_status := STARTING;
       run_data_interval_start := Some interval_start;
       run_data_interval_end := Some interval_end |}).

Definition with_status `{Runtime} (s : Status) (r : BatchExportRun) : BatchExportRun :=
  {| run_pk := run_pk r;
     run_team := run_team r;
     run_batch_export_id := run_batch_export_id r;
     run_workflow_id := run_workflow_id r;
     run_run_id := run_run_id r;
     run_status := s;
     run_data_interval_start := run_data_interval_start r;
     run_data_interval_end := run_data_interval_end r |}.

Definition update_batch_export_run_status `{Runtime} (run_id : UUID)
    (status : Status) : M unit :=
  let* updated :=
    write_runs (qs_update (λ r, run_pk r = run_id) (with_status status)) in
  match updated with
  | O => raise (ValueError ("BatchExportRun with id " +:+ str run_id +:+ " not found."))
  | S _ => ret ()
  end.

Definition create_batch_export `{Runtime} (batch_export : BatchExport) : M unit :=
  let* (workflow, workflow_inputs) :=
    lift (getitem DESTINATION_WORKFLOWS
            (destination_type (be_destination batch_export))) in
  let common_search_attributes : gmap string (list PyVal) :=
    list_to_map
      [("DestinationId", [VStr (str (destination_id (be_destination batch_export)))]);
       ("DestinationType", [VStr (destination_type (be_destination batch_export))]);
       ("TeamId", [VInt (team_id (be_team batch_export))]);
       ("TeamName", [VStr (team_name (be_team batch_export))]);
       ("BatchExportId", [VStr (str (be_id batch_export))])] in
  let state :=
    {| state_note :=
         "Schedule created for BatchExport " +:+ str (be_id batch_export)
         +:+ " to Destination " +:+ str (destination_id (be_destination batch_export))
         +:+ " in Team " +:+ pretty (team_id (be_team batch_export)) +:+ ".";
       state_paused := be_paused batch_export |} in
  let* arg :=
    lift (result_bind
            (keywords [("team_id", VInt (team_id (be_team batch_export)));
                       ("batch_export_id", VStr (str (be_id batch_export)))]
               (destination_config (be_destination batch_export)))
            workflow_inputs) in
  create_schedule (str (be_id batch_export))
    {| schedule_action :=
         {| action_workflow := workflow;
            action_args := asdict arg;
            action_id := str (be_id batch_export);
            action_task_queue := TEMPORAL_TASK_QUEUE;
            action_search_attributes := common_search_attributes |};
       schedule_spec := mkScheduleSpec;
       schedule_state := state |}
    common_search_attributes.

(** ** [posthog/temporal/workflows/base.py] *)

(** What [activity.info()] tells an activity about the execution it runs in. *)
Record ActivityInfo := {
  info_workflow_id : string;
  info_workflow_run_id : string;
}.

(** What an activity finds around it: the execution it belongs to, the
    constructor [uuid.UUID], which raises a [ValueError] on a text that is no
    UUID, and whether Django's guard against the use of the ORM inside a
    running event loop is switched off ([DJANGO_ALLOW_ASYNC_UNSAFE]). *)
Class Worker := {
  activity_info : ActivityInfo;
  UUID_of : string → result UUID;
  allow_async_unsafe : bool;
}.

(** A synchronous function that starts with a query, called as it is from an
    [async def]: with the guard on, its first query raises
    [SynchronousOnlyOperation] and nothing of it has run. *)
Definition from_async_def `{Runtime} `{Worker} {A} (orm : M A) : M A :=
  if allow_async_unsafe then orm else raise SynchronousOnlyOperation.

Record CreateBatchExportRunInputs := {
  inputs_team_id : Z;
  inputs_batch_export_id : string;
  inputs_data_interval_start : string;
  inputs_data_interval_end : string;
}.

Record UpdateBatchExportRunStatusInputs := {
  inputs_id : string;
  inputs_status : Status;
}.

(** A call that passes the keywords [given] to a function whose parameters
    are [params], none with a default: every keyword has to name a parameter
    and every parameter has to get a value, else the call is a [TypeError]. *)
Definition accepts_keywords (params given : list string) : bool :=
  forallb (λ k, bool_decide (k ∈ params)) given
  && forallb (λ k, bool_decide (k ∈ given)) params.

Definition create_batch_export_run_params : list string :=
  ["team_id"; "workflow_id"; "run_id"; "batch_export_id";
   "data_interval_start"; "data_interval_end"].

Definition update_batch_export_run_status_params : list string :=
  ["run_id"; "status"].

(** The activity [create_export_run], an [async def] that calls
    [create_batch_export_run] directly, without [sync_to_async].  Its two log
    lines are left out. *)
Definition create_export_run `{Runtime} `{Worker}
    (inputs : CreateBatchExportRunInputs) : M string :=
  let* batch_export_id := lift (UUID_of (inputs_batch_export_id inputs)) in
  if accepts_keywords create_batch_export_run_params
       ["team_id"; "workflow_id"; "run_id"; "batch_export_id";
        "data_interval_start"; "data_interval_end"]
  then
    let* run :=
      from_async_def
        (create_batch_export_run (inputs_team_id inputs)
           (info_workflow_id activity_info) (info_workflow_run_id activity_info)
           batch_export_id
           (inputs_data_interval_start inputs) (inputs_data_interval_end inputs)) in
    ret (str (run_pk run))
  else raise TypeError.

(** The activity [update_export_run_status].  It calls
    [update_batch_export_run_status] with the keywords [id] and [status], and
    awaits what the call returns, which would be [None]. *)
Definition update_export_run_status `{Runtime} `{Worker}
    (inputs : UpdateBatchExportRunStatusInputs) : M unit :=
  let* id := lift (UUID_of (inputs_id inputs)) in
  if accepts_keywords update_batch_export_run_status_params ["id"; "status"]
  then
    let* _ := update_batch_export_run_status id (inputs_status inputs) in
    raise TypeError
  else raise TypeError.

(** ** The properties of the specification that the code is compared with *)

(** The run records of one execution, identified by its workflow id and its
    workflow run id. *)
Definition runs_of `{Runtime} (workflow_id run_id : string) (w : World)
    : list BatchExportRun :=
  filter (λ r, run_workflow_id r = Some workflow_id ∧ run_run_id r = Some run_id)
    (batch_export_runs (db w)).

(** In the words of the specification: [create_run] called twice with the same
    (workflow id, run id) pair yields exactly one run record. *)
Definition create_run_is_idempotent `{Runtime} (team : Z)
    (workflow_id run_id : string) (batch_export_id : UUID)
    (interval_start interval_end : string) (w : World) : Prop :=
  let once := create_batch_export_run team workflow_id run_id batch_export_id
                interval_start interval_end in
  length (runs_of workflow_id run_id (once (once w).2).2) = 1.

(** The stored statuses of the run records with a given id. *)
Definition status_of `{Runtime} (run_id : UUID) (w : World) : list Status :=
  run_status <$> filter (λ r, run_pk r = run_id) (batch_export_runs (db w)).

(** In the words of the specification: once a run is in a terminal state,
    [update_run_status] leaves its stored status as it is. *)
Definition terminal_status_is_frozen `{Runtime} (run_id : UUID)
    (new_status : Status) (w : World) : Prop :=
  Forall (λ s, is_terminal s = true) (status_of run_id w) →
  status_of run_id (update_batch_export_run_status run_id new_status w).2
  = status_of run_id w.

(** In the words of the specification: when the engine call of a pause fails,
    the operation raises an error of its own, [PartialSyncFailure], distinct
    from the failure the engine call raised. *)
Definition raises_PartialSyncFailure `{Runtime} (engine_call operation : M unit)
    (w : World) : Prop :=
  ∀ e, (engine_call w).1 = Raise e →
       ∃ e', (operation w).1 = Raise e' ∧ e' ≠ e.

(** The world after the local step of a pause or an unpause. *)
Definition flagged `{Runtime} (b : bool) (batch_export_id : string) (w : World) : World :=
  {| db := {| teams := teams (db w);
              batch_exports :=
                (λ e, if decide (be_id e = batch_export_id) then with_paused b e else e)
                <$> batch_exports (db w);
              batch_export_runs := batch_export_runs (db w) |};
     temporal := temporal w |}.

(** The schedule id a request to the engine is addressed to. *)
Definition request_schedule_id `{Runtime} (rq : Request) : option string :=
  match rq with
  | CreateSchedule id _ _ | PauseSchedule id _ | UnpauseSchedule id _
  | DeleteSchedule id | DescribeSchedule id => Some id
  | ExecuteWorkflow _ _ _ _ => None
  end.

(** Every request an operation has added to the engine's record is for the
    given schedule. *)
Definition only_addresses `{Runtime} (schedule_id : string) (before after : World) : Prop :=
  ∃ added,
    requests (temporal after) = requests (temporal before) ++ added
    ∧ Forall (λ rq, request_schedule_id rq = Some schedule_id) added.

(** The settings a destination configuration may give to the S3 workflow, the
    first four of which it must give. *)
Definition S3_required : list string :=
  ["bucket_name"; "region"; "key_template"; "batch_window_size"].

Definition S3_settings : list string :=
  S3_required ++ ["table_name"; "file_format"; "partition_key";
                  "aws_access_key_id"; "aws_secret_access_key"].

Definition fits_S3 `{Runtime} (config : gmap string PyVal) : Prop :=
  (list_to_set S3_required : gset string) ⊆ dom config
  ∧ dom config ⊆ (list_to_set S3_settings : gset string).

(** The settings a destination configuration may give when the schedule is
    created: [create_batch_export] writes no [data_interval_end] itself. *)
Definition S3_schedule_settings : list string :=
  S3_settings ++ ["data_interval_end"].

Definition fits_S3_schedule `{Runtime} (config : gmap string PyVal) : Prop :=
  (list_to_set S3_required : gset string) ⊆ dom config
  ∧ dom config ⊆ (list_to_set S3_schedule_settings : gset string).

(** The defaults of the fields of [S3BatchExportInputs] that have one. *)
Definition S3_defaults `{Runtime} : gmap string PyVal :=
  list_to_map
    [("table_name", VStr "events"); ("file_format", VStr "CSVWithNames");
     ("partition_key", VNone); ("aws_access_key_id", VNone);
     ("aws_secret_access_key", VNone); ("data_interval_end", VNone)].

(** The search attributes [create_batch_export] attaches to a schedule. *)
Definition search_attributes_of `{Runtime} (e : BatchExport)
    : gmap string (list PyVal) :=
  list_to_map
    [("DestinationId", [VStr (str (destination_id (be_destination e)))]);
     ("DestinationType", [VStr (destination_type (be_destination e))]);
     ("TeamId", [VInt (team_id (be_team e))]);
     ("TeamName", [VStr (team_name (be_team e))]);
     ("BatchExportId", [VStr (str (be_id e))])].

(** The input of a workflow as the service builds it: the keywords it writes,
    the destination configuration, the constructor of the registry. *)
Definition S3_input_of `{Runtime} (written : list (string * PyVal))
    (config : gmap string PyVal) : result WorkflowInputs :=
  result_bind (keywords written config)
    (λ kw, result_bind (new_S3BatchExportInputs kw) (λ i, Ok (S3Inputs i))).

(** The schedule [create_batch_export] asks the engine for. *)
Definition schedule_of `{Runtime} (e : BatchExport) : Schedule :=
  {| schedule_action :=
       {| action_workflow := "s3-export";
          action_args :=
            (list_to_map [("team_id", VInt (team_id (be_team e)));
                          ("batch_export_id", VStr (str (be_id e)))]
             ∪ destination_config (be_destination e))
            ∪ S3_defaults;
          action_id := str (be_id e);
          action_task_queue := TEMPORAL_TASK_QUEUE;
          action_search_attributes := search_attributes_of e |};
     schedule_spec := mkScheduleSpec;
     schedule_state :=
       {| state_note :=
            "Schedule created for BatchExport " +:+ str (be_id e)
            +:+ " to Destination " +:+ str (destination_id (be_destination e))
            +:+ " in Team " +:+ pretty (team_id (be_team e)) +:+ ".";
          state_paused := be_paused e |} |}.

(** A run record with its status blanked: what of a record an update of the
    status cannot change. *)
Definition without_status `{Runtime} (r : BatchExportRun) : BatchExportRun :=
  with_status STARTING r.

(** An export definition with its flag blanked: what of a definition a pause
    or an unpause cannot change. *)
Definition without_paused `{Runtime} (e : BatchExport) : BatchExport :=
  with_paused false e.

(** ** A small installation to run the service on *)

Module Fixture.

Definition python : Runtime :=
  {| datetime := string;
     fromisoformat := λ s,
       if decide (String.length s = 19) then Ok s
       else Raise (ValueError "Invalid isoformat string");
     TEMPORAL_TASK_QUEUE := "batch-exports" |}.

#[local] Existing Instance python.

Definition acme : Team := {| team_id := 1; team_name := "acme" |}.

Definition s3_config : gmap string PyVal :=
  list_to_map
    [("bucket_name", VStr "my-bucket"); ("region", VStr "us-east-1");
     ("key_template", VStr "exports/{year}"); ("batch_window_size", VInt 3600)].

Definition E1 : BatchExport :=
  {| be_id := "E1";
     be_team := acme;
     be_destination := {| destination_id := "D1";
                          destination_type := "S3";
                          destination_config := s3_config |};
     be_paused := false |}.

Definition E2 : BatchExport :=
  {| be_id := "E2";
     be_team := acme;
     be_destination := {| destination_id := "D2";
                          destination_type := "Snowflake";
                          destination_config := ∅ |};
     be_paused := true |}.

Definition jan1 : datetime := "2023-01-01T00:00:00".
Definition jan2 : datetime := "2023-01-02T00:00:00".

Definition completed_run : BatchExportRun :=
  {| run_pk := "R1";
     run_team := Some 1%Z;
     run_batch_export_id := "E1";
     run_workflow_id := Some "E1-2023-01-02T00:00:00Z";
     run_run_id := Some "attempt-1";
     run_status := COMPLETED;
     run_data_interval_start := Some jan1;
     run_data_interval_end := Some jan2 |}.

Definition store (runs : list BatchExportRun) : DB :=
  {| teams := [acme]; batch_exports := [E1; E2]; batch_export_runs := runs |}.

Definition engine (up : bool) : Temporal :=
  {| schedules := ∅; requests := []; available := up |}.

(** No run yet, no schedule yet, the engine reachable. *)
Definition w0 : World := {| db := store []; temporal := engine true |}.

(** One completed run. *)
Definition w_done : World := {| db := store [completed_run]; temporal := engine true |}.

(** The engine unreachable. *)
Definition w_down : World := {| db := store []; temporal := engine false |}.

(** The record of a scheduled execution of [E1], as its workflow reports it. *)
Definition reported_run (pk : UUID) : BatchExportRun :=
  {| run_pk := pk;
     run_team := Some 1%Z;
     run_batch_export_id := "E1";
     run_workflow_id := Some "E1-2023-01-02T00:00:00Z";
     run_run_id := Some "attempt-1";
     run_status := STARTING;
     run_data_interval_start := Some jan1;
     run_data_interval_end := Some jan2 |}.

(** The record of a backfill of an export over the first of January. *)
Definition backfill_run (pk batch_export_id : UUID) : BatchExportRun :=
  {| run_pk := pk;
     run_team := None;
     run_batch_export_id := batch_export_id;
     run_workflow_id := None;
     run_run_id := None;
     run_status := STARTING;
     run_data_interval_start := Some jan1;
     run_data_interval_end := Some jan2 |}.



(** The worker that runs the activities of the first attempt of a scheduled
    execution of [E1], with Django's guard on as it is by default; it takes
    every text but the empty one for a UUID. *)
Definition worker : Worker :=
  {| activity_info := {| info_workflow_id := "E1-2023-01-02T00:00:00Z";
                         info_workflow_run_id := "attempt-1" |};
     UUID_of := λ s, if decide (s = "")
                     then Raise (ValueError "badly formed hexadecimal UUID string")
                     else Ok s;
     allow_async_unsafe := false |}.

(** The same worker started with [DJANGO_ALLOW_ASYNC_UNSAFE] set. *)
Definition worker_unsafe : Worker :=
  {| activity_info := @activity_info worker;
     UUID_of := @UUID_of worker;
     allow_async_unsafe := true |}.

Definition report_E1 : CreateBatchExportRunInputs :=
  {| inputs_team_id := 1;
     inputs_batch_export_id := "E1";
     inputs_data_interval_start := jan1;
     inputs_data_interval_end := jan2 |}.

(** The keywords of a well-formed call of the input constructor. *)
Definition s3_keywords : gmap string PyVal :=
  <["team_id" := VInt 1]> (<["batch_export_id" := VStr "E1"]> s3_config).

(** A report whose export id is no UUID. *)
Definition report_nothing : CreateBatchExportRunInputs :=
  {| inputs_team_id := 1;
     inputs_batch_export_id := "";
     inputs_data_interval_start := jan1;
     inputs_data_interval_end := jan2 |}.

End Fixture.

(** ** Properties of the service *)

Section Properties.
Context `{Runtime}.

(** *** The store *)

Lemma new_pk_fresh (rows : list BatchExportRun) : new_pk rows ∉ run_pk <$> rows.
Proof. apply infinite_is_fresh. Qed.

Section QuerySet.
Context {A : Type} (P : A → Prop) `{∀ x, Decision (P x)} (f : A → A).

Lemma filter_no_match (rows : list A) :
  (∀ r, r ∈ rows → ¬ P r) → filter P rows = [].
Proof.
  induction rows as [|r rows IH]; intros Hno; [done|].
  rewrite filter_cons_False by (apply Hno; left).
  apply IH. intros r' Hr'. apply Hno. by right.
Qed.

Lemma filter_some_match (rows : list A) r :
  r ∈ rows → P r → ∃ r' rest, filter P rows = r' :: rest.
Proof.
  intros Hin HP.
  assert (r ∈ filter P rows) as Hf by (by apply list_elem_of_filter).
  destruct (filter P rows) as [|r' rest]; [by apply elem_of_nil in Hf|eauto].
Qed.

Lemma update_no_match (rows : list A) :
  (∀ r, r ∈ rows → ¬ P r) →
  ((λ r, if decide (P r) then f r else r) <$> rows) = rows.
Proof.
  induction rows as [|r rows IH]; intros Hno; [done|].
  rewrite fmap_cons. rewrite decide_False by (apply Hno; left).
  f_equal. apply IH. intros r' Hr'. apply Hno. by right.
Qed.

Lemma qs_update_no_match (rows : list A) :
  (∀ r, r ∈ rows → ¬ P r) → qs_update P f rows = (0, rows).
Proof.
  intros Hno. unfold qs_update.
  by rewrite filter_no_match, update_no_match.
Qed.

Lemma qs_update_rows (rows : list A) r :
  r ∈ (qs_update P f rows).2 →
  ∃ r0, r0 ∈ rows ∧ r = (if decide (P r0) then f r0 else r0).
Proof.
  unfold qs_update. simpl. intros Hr.
  apply list_elem_of_fmap in Hr as (r0 & -> & Hr0). eauto.
Qed.

End QuerySet.

Lemma world_eta (w : World) :
  {| db := {| teams := teams (db w);
              batch_exports := batch_exports (db w);
              batch_export_runs := batch_export_runs (db w) |};
     temporal := temporal w |} = w.
Proof. by destruct w as [[] ?]. Qed.

(** *** Creating run records *)

(** What a successful [create_batch_export_run] has found and done. *)
Lemma create_batch_export_run_Ok team workflow_id run_id batch_export_id
    interval_start interval_end (w w1 : World) r1 :
  create_batch_export_run team workflow_id run_id batch_export_id
    interval_start interval_end w = (Ok r1, w1) ↔
  ∃ t ds de,
    qs_get "Team" (λ t, team_id t = team) (teams (db w)) = Ok t
    ∧ fromisoformat interval_start = Ok ds
    ∧ fromisoformat interval_end = Ok de
    ∧ batch_export_id ∈ be_id <$> batch_exports (db w)
    ∧ r1 = {| run_pk := new_pk (batch_export_runs (db w));
              run_team := Some (team_id t);
              run_batch_export_id := batch_export_id;
              run_workflow_id := Some workflow_id;
              run_run_id := Some run_id;
              run_status := STARTING;
              run_data_interval_start := Some ds;
              run_data_interval_end := Some de |}
    ∧ w1 = {| db := {| teams := teams (db w);
                       batch_exports := batch_exports (db w);
                       batch_export_runs := batch_export_runs (db w) ++ [r1] |};
              temporal := temporal w |}.
Proof.
  unfold create_batch_export_run, bind, query, lift, BatchExportRun_save,
    write_runs.
  split.
  - destruct (qs_get _ _ _) as [t|]; [|done].
    destruct (fromisoformat interval_start) as [ds|]; [|done].
    destruct (fromisoformat interval_end) as [de|]; [|done].
    simpl. case_decide; [|done].
    intros [= <- <-]. by exists t, ds, de.
  - intros (t & ds & de & -> & -> & -> & Hfk & -> & ->).
    simpl. by rewrite decide_True.
Qed.

Lemma runs_of_app workflow_id run_id (w w' : World) rows :
  batch_export_runs (db w') = batch_export_runs (db w) ++ rows →
  runs_of workflow_id run_id w'
  = runs_of workflow_id run_id w
    ++ filter (λ r, run_workflow_id r = Some workflow_id ∧ run_run_id r = Some run_id) rows.
Proof. unfold runs_of. intros ->. apply filter_app. Qed.

(** C1, as the code has it: [create_batch_export_run] never looks for an
    existing record.  When a call succeeds, the same call repeated succeeds
    again and inserts a second record under another primary key, so that the
    store holds two more records of that (workflow id, run id) pair than
    before. *)
Theorem create_batch_export_run_twice team workflow_id run_id batch_export_id
    interval_start interval_end (w w1 : World) r1 :
  create_batch_export_run team workflow_id run_id batch_export_id
    interval_start interval_end w = (Ok r1, w1) →
  ∃ r2 w2,
    create_batch_export_run team workflow_id run_id batch_export_id
      interval_start interval_end w1 = (Ok r2, w2)
    ∧ run_pk r2 ≠ run_pk r1
    ∧ batch_export_runs (db w2) = batch_export_runs (db w) ++ [r1; r2]
    ∧ length (runs_of workflow_id run_id w2)
      = 2 + length (runs_of workflow_id run_id w).
Proof.
  intros Hfirst.
  apply create_batch_export_run_Ok in Hfirst
    as (t & ds & de & Hteam & Hds & Hde & Hfk & Hr1 & Hw1).
  set (r2 := {| run_pk := new_pk (batch_export_runs (db w1));
                run_team := Some (team_id t);
                run_batch_export_id := batch_export_id;
                run_workflow_id := Some workflow_id;
                run_run_id := Some run_id;
                run_status := STARTING;
                run_data_interval_start := Some ds;
                run_data_interval_end := Some de |}).
  set (w2 := {| db := {| teams := teams (db w1);
                         batch_exports := batch_exports (db w1);
                         batch_export_runs := batch_export_runs (db w1) ++ [r2] |};
                temporal := temporal w1 |}).
  assert (batch_export_runs (db w1) = batch_export_runs (db w) ++ [r1]) as Hrows
    by (by rewrite Hw1).
  exists r2, w2. split; [|split; [|split]].
  - apply create_batch_export_run_Ok. exists t, ds, de.
    subst w1. simpl. by repeat split.
  - intros Heq. apply (new_pk_fresh (batch_export_runs (db w1))).
    subst r2. simpl in Heq. rewrite Heq, Hrows, fmap_app.
    apply elem_of_app. right. simpl. left.
  - subst w2. simpl. rewrite Hrows. by rewrite <- app_assoc.
  - rewrite (runs_of_app _ _ w w2 [r1; r2]).
    + rewrite length_app.
      rewrite filter_cons_True by (by rewrite Hr1).
      rewrite filter_cons_True by done.
      simpl. lia.
    + subst w2. simpl. rewrite Hrows. by rewrite <- app_assoc.
Qed.

(** *** Updating the status of a run *)

(** C6: on a run id that no record has, [update_batch_export_run_status]
    raises the "not found" [ValueError] (the specification's [RunNotFound])
    and leaves the store, and the whole world, as it was. *)
Theorem update_batch_export_run_status_not_found run_id status (w : World) :
  run_id ∉ run_pk <$> batch_export_runs (db w) →
  update_batch_export_run_status run_id status w
  = (Raise (ValueError ("BatchExportRun with id " +:+ str run_id +:+ " not found.")),
     w).
Proof.
  intros Hno.
  unfold update_batch_export_run_status, bind, write_runs.
  rewrite qs_update_no_match.
  - unfold raise, lift. by rewrite world_eta.
  - intros r Hr Heq. apply Hno. rewrite <- Heq. by apply list_elem_of_fmap_2.
Qed.

Lemma update_status_matching run_id status (rows : list BatchExportRun) :
  filter (λ r, run_pk r = run_id)
    ((λ r, if decide (run_pk r = run_id) then with_status status r else r) <$> rows)
  = with_status status <$> filter (λ r, run_pk r = run_id) rows.
Proof.
  induction rows as [|x rows IH]; [done|].
  rewrite fmap_cons. destruct (decide (run_pk x = run_id)) as [Hx|Hx].
  - rewrite !filter_cons_True by done. rewrite fmap_cons. by f_equal.
  - by rewrite !filter_cons_False by done.
Qed.

Lemma update_status_others run_id status (rows : list BatchExportRun) :
  filter (λ r, run_pk r ≠ run_id)
    ((λ r, if decide (run_pk r = run_id) then with_status status r else r) <$> rows)
  = filter (λ r, run_pk r ≠ run_id) rows.
Proof.
  induction rows as [|x rows IH]; [done|].
  rewrite fmap_cons. destruct (decide (run_pk x = run_id)) as [Hx|Hx].
  - rewrite !filter_cons_False by (simpl; tauto). done.
  - rewrite !filter_cons_True by done. by f_equal.
Qed.

Lemma statuses_after_update status (rows : list BatchExportRun) :
  run_status <$> (with_status status <$> rows) = replicate (length rows) status.
Proof. induction rows as [|x rows IH]; [done|]. simpl. by f_equal. Qed.

(** C2, as the code has it: [update_batch_export_run_status] does not read the
    current status.  Whenever the run exists the call succeeds, and afterwards
    every record with that id holds the new status, whatever it held before,
    a terminal status included; the other records are as they were. *)
Theorem update_batch_export_run_status_overwrites run_id status (w : World) :
  run_id ∈ run_pk <$> batch_export_runs (db w) →
  ∃ w',
    update_batch_export_run_status run_id status w = (Ok (), w')
    ∧ status_of run_id w' = replicate (length (status_of run_id w)) status
    ∧ status_of run_id w' ≠ []
    ∧ filter (λ r, run_pk r ≠ run_id) (batch_export_runs (db w'))
      = filter (λ r, run_pk r ≠ run_id) (batch_export_runs (db w))
    ∧ temporal w' = temporal w.
Proof.
  intros Hin.
  apply list_elem_of_fmap in Hin as (r & Hpk & Hr).
  unfold update_batch_export_run_status, bind, write_runs, qs_update.
  destruct (filter_some_match (λ r, run_pk r = run_id) _ r Hr (eq_sym Hpk))
    as (r' & rest & Hf).
  rewrite Hf. simpl. eexists. split; [done|].
  unfold status_of. simpl.
  rewrite update_status_matching, update_status_others, statuses_after_update.
  rewrite length_fmap, Hf. by repeat split.
Qed.

(** *** Pausing and unpausing *)

Lemma pause_schedule_requests schedule_id note (w : World) :
  requests (temporal (pause_schedule schedule_id note w).2)
  = requests (temporal w) ++ [PauseSchedule schedule_id note].
Proof.
  unfold pause_schedule, rpc, engine_set_paused. simpl.
  destruct (available (temporal w)); simpl; [|done].
  by destruct (schedules (temporal w) !! schedule_id).
Qed.

Lemma unpause_schedule_requests schedule_id note (w : World) :
  requests (temporal (unpause_schedule schedule_id note w).2)
  = requests (temporal w) ++ [UnpauseSchedule schedule_id note].
Proof.
  unfold unpause_schedule, rpc, engine_set_paused. simpl.
  destruct (available (temporal w)); simpl; [|done].
  by destruct (schedules (temporal w) !! schedule_id).
Qed.

Lemma pause_batch_export_unfold batch_export_id note (w : World) :
  pause_batch_export batch_export_id note w
  = pause_schedule batch_export_id note (flagged true batch_export_id w).
Proof. done. Qed.

Lemma unpause_batch_export_unfold batch_export_id note (w : World) :
  unpause_batch_export batch_export_id note w
  = unpause_schedule batch_export_id note (flagged false batch_export_id w).
Proof. done. Qed.

Lemma rpc_db {A} (f : Temporal → result A * Temporal) (w : World) :
  db (rpc f w).2 = db w.
Proof. unfold rpc. by destruct (f (temporal w)). Qed.

Lemma rpc_result {A} (f : Temporal → result A * Temporal) (w w' : World) :
  temporal w = temporal w' → (rpc f w).1 = (rpc f w').1.
Proof. unfold rpc. intros ->. by destruct (f (temporal w')). Qed.

Lemma flagged_paused b batch_export_id (w : World) e :
  e ∈ batch_exports (db (flagged b batch_export_id w)) →
  be_id e = batch_export_id → be_paused e = b.
Proof.
  simpl. intros He Hid.
  apply list_elem_of_fmap in He as (e0 & -> & _).
  by case_decide.
Qed.

(** C5, as the code has it: [pause_batch_export] first sets the local flag of
    every export with that id, then sends exactly one pause request for the
    schedule with that id.  Whatever the engine answers, the flag stays set,
    and what the engine call raises is what the operation raises: the
    engine's error reaches the caller as it is, not wrapped into an error of
    the operation's own.  [unpause_batch_export] does the same with the flag
    cleared. *)
Theorem pause_batch_export_two_steps batch_export_id note (w : World) :
  ((∀ e, e ∈ batch_exports (db (pause_batch_export batch_export_id note w).2) →
         be_id e = batch_export_id → be_paused e = true)
   ∧ requests (temporal (pause_batch_export batch_export_id note w).2)
     = requests (temporal w) ++ [PauseSchedule batch_export_id note]
   ∧ (pause_batch_export batch_export_id note w).1
     = (pause_schedule batch_export_id note w).1)
  ∧ ((∀ e, e ∈ batch_exports (db (unpause_batch_export batch_export_id note w).2) →
           be_id e = batch_export_id → be_paused e = false)
     ∧ requests (temporal (unpause_batch_export batch_export_id note w).2)
       = requests (temporal w) ++ [UnpauseSchedule batch_export_id note]
     ∧ (unpause_batch_export batch_export_id note w).1
       = (unpause_schedule batch_export_id note w).1).
Proof.
  rewrite pause_batch_export_unfold, unpause_batch_export_unfold.
  split; (split; [|split]).
  - unfold pause_schedule. rewrite rpc_db. apply flagged_paused.
  - by rewrite pause_schedule_requests.
  - by apply rpc_result.
  - unfold unpause_schedule. rewrite rpc_db. apply flagged_paused.
  - by rewrite unpause_schedule_requests.
  - by apply rpc_result.
Qed.

Lemma flagged_no_match b batch_export_id (w : World) :
  batch_export_id ∉ be_id <$> batch_exports (db w) →
  flagged b batch_export_id w = w.
Proof.
  intros Hno. unfold flagged.
  rewrite update_no_match; [apply world_eta|].
  intros e He Hid. apply Hno. rewrite <- Hid. by apply list_elem_of_fmap_2.
Qed.

(** C10: when no export has the given id, the local step of a pause or an
    unpause updates no row and raises nothing, so that the operation is the
    bare engine call: the store is as before and the request for that id is
    sent all the same. *)
Theorem pause_batch_export_unknown_id batch_export_id note (w : World) :
  batch_export_id ∉ be_id <$> batch_exports (db w) →
  (pause_batch_export batch_export_id note w = pause_schedule batch_export_id note w
   ∧ db (pause_batch_export batch_export_id note w).2 = db w
   ∧ requests (temporal (pause_batch_export batch_export_id note w).2)
     = requests (temporal w) ++ [PauseSchedule batch_export_id note])
  ∧ (unpause_batch_export batch_export_id note w
     = unpause_schedule batch_export_id note w
     ∧ db (unpause_batch_export batch_export_id note w).2 = db w
     ∧ requests (temporal (unpause_batch_export batch_export_id note w).2)
       = requests (temporal w) ++ [UnpauseSchedule batch_export_id note]).
Proof.
  intros Hno.
  rewrite pause_batch_export_unfold, unpause_batch_export_unfold.
  rewrite !flagged_no_match by done.
  split; (split; [done|split]).
  - apply rpc_db.
  - apply pause_schedule_requests.
  - apply rpc_db.
  - apply unpause_schedule_requests.
Qed.

(** *** Schedules *)

(** What a successful [create_batch_export] has found and done. *)
Lemma create_batch_export_Ok e (w w' : World) :
  create_batch_export e w = (Ok (), w') →
  ∃ schedule attributes,
    available (temporal w) = true
    ∧ schedules (temporal w) !! str (be_id e) = None
    ∧ state_paused (schedule_state schedule) = be_paused e
    ∧ action_id (schedule_action schedule) = str (be_id e)
    ∧ db w' = db w
    ∧ temporal w'
      = with_schedules (insert (str (be_id e)) schedule)
          (sent (CreateSchedule (str (be_id e)) schedule attributes) (temporal w)).
Proof.
  unfold create_batch_export, bind, lift, create_schedule, rpc,
    engine_create_schedule.
  destruct (getitem _ _) as [[workflow workflow_inputs]|]; [|done].
  destruct (result_bind _ _) as [arg|]; [|done].
  simpl. destruct (available (temporal w)); simpl; [|done].
  destruct (schedules (temporal w) !! str (be_id e)) eqn:Hfree; [done|].
  intros [= <-]. do 2 eexists. by repeat split.
Qed.

(** The requests [create_batch_export] sends: none when it fails before it
    reaches the engine, else one, for the schedule named after the export. *)
Lemma create_batch_export_requests e (w : World) :
  requests (temporal (create_batch_export e w).2) = requests (temporal w)
  ∨ ∃ schedule attributes,
      action_id (schedule_action schedule) = str (be_id e)
      ∧ requests (temporal (create_batch_export e w).2)
        = requests (temporal w)
          ++ [CreateSchedule (str (be_id e)) schedule attributes].
Proof.
  unfold create_batch_export, bind, lift, create_schedule, rpc,
    engine_create_schedule.
  destruct (getitem _ _) as [[workflow workflow_inputs]|]; [|by left].
  destruct (result_bind _ _) as [arg|]; [|by left].
  right. do 2 eexists. split; [|simpl].
  2:{ destruct (available (temporal w)); simpl; [|done].
      by destruct (schedules (temporal w) !! str (be_id e)). }
  done.
Qed.

Lemma delete_schedule_requests schedule_id (w : World) :
  requests (temporal (delete_schedule schedule_id w).2)
  = requests (temporal w) ++ [DeleteSchedule schedule_id].
Proof.
  unfold delete_schedule, rpc, engine_delete. simpl.
  destruct (available (temporal w)); simpl; [|done].
  by destruct (schedules (temporal w) !! schedule_id).
Qed.

Lemma describe_schedule_requests schedule_id (w : World) :
  requests (temporal (describe_schedule schedule_id w).2)
  = requests (temporal w) ++ [DescribeSchedule schedule_id].
Proof.
  unfold describe_schedule, rpc, engine_describe. simpl.
  destruct (available (temporal w)); simpl; [|done].
  by destruct (schedules (temporal w) !! schedule_id).
Qed.

(** C7: when [create_batch_export] succeeds, [describe_schedule] on the
    export's id succeeds too, and the schedule it returns is paused exactly
    when the definition was at the time of the creation. *)
Theorem create_then_describe_paused e (w w' : World) :
  create_batch_export e w = (Ok (), w') →
  ∃ description w'',
    describe_schedule (str (be_id e)) w' = (Ok description, w'')
    ∧ description_id description = str (be_id e)
    ∧ state_paused (schedule_state (description_schedule description))
      = be_paused e.
Proof.
  intros Hok.
  apply create_batch_export_Ok in Hok
    as (schedule & attributes & Hup & _ & Hpaused & _ & _ & Htemporal).
  unfold describe_schedule, rpc, engine_describe.
  rewrite Htemporal. simpl. rewrite Hup. simpl.
  rewrite lookup_insert_eq. by do 2 eexists.
Qed.

(** *** Workflow inputs *)

Lemma keywords_Ok written (config kw : gmap string PyVal) :
  keywords written config = Ok kw →
  kw = list_to_map written ∪ config ∧ config ⊆ kw.
Proof.
  unfold keywords. destruct (forallb _ _) eqn:Hnew; [|done].
  intros [= <-]. split; [done|].
  apply map_union_subseteq_r, map_disjoint_dom.
  rewrite dom_list_to_map_L. intros k Hk Hk'.
  apply elem_of_list_to_set, list_elem_of_fmap in Hk as ([k0 v] & -> & Hkv).
  apply list_elem_of_In in Hkv.
  rewrite forallb_forall in Hnew. apply Hnew in Hkv.
  apply bool_decide_eq_true in Hkv. simpl in Hkv. done.
Qed.

Lemma keywords_new written (config : gmap string PyVal) :
  Forall (λ kv, kv.1 ∉ dom config) written →
  keywords written config = Ok (list_to_map written ∪ config).
Proof.
  intros Hnew. unfold keywords.
  assert (forallb (λ kv, bool_decide (kv.1 ∉ dom config)) written = true) as ->; [|done].
  apply forallb_forall. intros kv Hkv. apply bool_decide_eq_true.
  rewrite Forall_forall in Hnew. apply Hnew. by apply list_elem_of_In.
Qed.

Lemma S3_fields_NoDup : NoDup S3_fields.
Proof. apply (bool_decide_unpack (NoDup S3_fields)). by vm_compute. Qed.

(** Every keyword the constructor accepts ends up as the field of its name. *)
Lemma new_S3BatchExportInputs_asdict (kw : gmap string PyVal) i :
  new_S3BatchExportInputs kw = Ok i → kw ⊆ asdict_S3 i.
Proof.
  unfold new_S3BatchExportInputs. case_decide as Hdom; [|done].
  destruct (kw !! "bucket_name") as [b|] eqn:Hb; [|done].
  destruct (kw !! "region") as [r|] eqn:Hr; [|done].
  destruct (kw !! "key_template") as [k|] eqn:Hk; [|done].
  destruct (kw !! "batch_window_size") as [s|] eqn:Hs; [|done].
  destruct (kw !! "team_id") as [t|] eqn:Ht; [|done].
  destruct (kw !! "batch_export_id") as [e|] eqn:He; [|done].
  intros [= <-]. apply map_subseteq_spec. intros field v Hfield.
  assert (field ∈ S3_fields) as Hin.
  { apply (elem_of_list_to_set (C := gset string)), Hdom, elem_of_dom. eauto. }
  apply elem_of_list_to_map_1; [apply S3_fields_NoDup|]. simpl.
  unfold S3_fields in Hin.
  repeat (apply elem_of_cons in Hin as [->|Hin];
          [rewrite ?Hfield; simpl; simplify_eq;
           repeat (first [apply list_elem_of_here | apply list_elem_of_further])|]).
  by apply elem_of_nil in Hin.
Qed.

Lemma new_S3BatchExportInputs_Ok (kw : gmap string PyVal) :
  dom kw ⊆ (list_to_set S3_fields : gset string) →
  Forall (λ field, field ∈ dom kw) (S3_required ++ ["team_id"; "batch_export_id"]) →
  ∃ i, new_S3BatchExportInputs kw = Ok i.
Proof.
  intros Hdom Hreq. unfold new_S3BatchExportInputs.
  rewrite decide_True by done.
  unfold S3_required in Hreq. simpl in Hreq.
  repeat (apply Forall_cons in Hreq as [[? Hfield]%elem_of_dom Hreq];
          rewrite Hfield; clear Hfield).
  eauto.
Qed.

Lemma written_keywords_are_fields :
  Forall (λ k, k ∈ S3_fields) ["team_id"; "batch_export_id"; "data_interval_end"].
Proof. apply (bool_decide_unpack _). by vm_compute. Qed.

Lemma S3_settings_are_fields : Forall (λ k, k ∈ S3_fields) S3_settings.
Proof. apply (bool_decide_unpack _). by vm_compute. Qed.

Lemma S3_settings_are_not_written :
  Forall (λ k, k ∉ ["team_id"; "batch_export_id"; "data_interval_end"]) S3_settings.
Proof. apply (bool_decide_unpack _). by vm_compute. Qed.

(** A configuration that fits the S3 workflow can be passed to its input
    constructor next to the keywords the service writes itself. *)
Lemma S3_inputs_of_config written (config : gmap string PyVal) :
  fits_S3 config →
  written.*1 ⊆ ["team_id"; "batch_export_id"; "data_interval_end"] →
  Forall (λ field, field ∈ written.*1) ["team_id"; "batch_export_id"] →
  ∃ i,
    result_bind (keywords written config)
      (λ kw, result_bind (new_S3BatchExportInputs kw) (λ i, Ok (S3Inputs i)))
    = Ok (S3Inputs i)
    ∧ list_to_map written ∪ config ⊆ asdict_S3 i.
Proof.
  intros [Hreq Hdom] Hwritten Hgiven.
  rewrite keywords_new.
  - simpl.
    destruct (new_S3BatchExportInputs_Ok (list_to_map written ∪ config)) as [i Hi].
    + rewrite dom_union_L, dom_list_to_map_L.
      apply union_least; intros k Hk; apply elem_of_list_to_set.
      * apply elem_of_list_to_set, Hwritten in Hk.
        by apply (proj1 (Forall_forall _ _) written_keywords_are_fields).
      * apply Hdom, elem_of_list_to_set in Hk.
        by apply (proj1 (Forall_forall _ _) S3_settings_are_fields).
    + rewrite Forall_forall. intros field Hfield.
      rewrite dom_union_L, dom_list_to_map_L, elem_of_union, elem_of_list_to_set.
      apply elem_of_app in Hfield as [Hfield|Hfield].
      * right. by apply Hreq, elem_of_list_to_set.
      * left. by apply (proj1 (Forall_forall _ _) Hgiven).
    + rewrite Hi. simpl. exists i. split; [done|].
      by apply new_S3BatchExportInputs_asdict.
  - rewrite Forall_forall. intros [k v] Hkv. simpl.
    intros Hk%Hdom%elem_of_list_to_set.
    apply (proj1 (Forall_forall _ _) S3_settings_are_not_written k Hk).
    apply Hwritten. by apply (list_elem_of_fmap_2 fst _ (k, v)).
Qed.

(** *** Backfills *)

(** A primary key selects at most one row; when it selects one, [get]
    returns it. *)
Lemma qs_get_unique {A} model (P : A → Prop) `{∀ x, Decision (P x)} rows r :
  filter P rows = [r] → qs_get model P rows = Ok r.
Proof. unfold qs_get. by intros ->. Qed.

(** An export of a type that is not registered: the run record is inserted
    before the registry is consulted, and stays when the lookup raises. *)
Lemma backfill_export_unregistered e start_at end_at (w : World) :
  filter (λ x, be_id x = be_id e) (batch_exports (db w)) = [e] →
  (DESTINATION_WORKFLOWS (H := H)) !! destination_type (be_destination e) = None →
  ∃ run w',
    backfill_export (be_id e) start_at end_at w
    = (Raise (KeyError (destination_type (be_destination e))), w')
    ∧ batch_export_runs (db w') = batch_export_runs (db w) ++ [run]
    ∧ run_batch_export_id run = be_id e
    ∧ temporal w' = temporal w.
Proof.
  intros Hget Htype.
  unfold backfill_export, bind, query, BatchExportRun_objects_create,
    write_runs, lift.
  rewrite (qs_get_unique _ _ _ _ Hget). simpl.
  unfold getitem. rewrite Htype. by do 2 eexists.
Qed.

(** [create_batch_export] succeeds for an export of type [S3] whose
    configuration fits, when the engine is reachable and has no schedule of
    that id yet. *)
Lemma create_batch_export_succeeds e (w : World) :
  destination_type (be_destination e) = "S3" →
  fits_S3 (destination_config (be_destination e)) →
  available (temporal w) = true →
  schedules (temporal w) !! str (be_id e) = None →
  ∃ w', create_batch_export e w = (Ok (), w').
Proof.
  intros Htype Hfits Hup Hfree.
  unfold create_batch_export, bind, lift, create_schedule, rpc,
    engine_create_schedule.
  rewrite Htype. unfold getitem, DESTINATION_WORKFLOWS.
  rewrite lookup_singleton_eq.
  destruct (S3_inputs_of_config
              [("team_id", VInt (team_id (be_team e)));
               ("batch_export_id", VStr (str (be_id e)))]
              _ Hfits) as (i & -> & _).
  { intros k Hk. simpl in Hk.
    repeat (apply elem_of_cons in Hk as [->|Hk];
            [repeat (first [apply list_elem_of_here | apply list_elem_of_further])|]).
    by apply elem_of_nil in Hk. }
  { repeat constructor. }
  simpl. rewrite Hup. simpl. rewrite Hfree. eauto.
Qed.

End Properties.

(** ** The service on the small installation *)

Lemma create_batch_export_run_twice_witness :
  create_batch_export_run 1 "E1-2023-01-02T00:00:00Z" "attempt-1" "E1"
    Fixture.jan1 Fixture.jan2 Fixture.w0
  = (Ok (Fixture.reported_run "0"),
     {| db := Fixture.store [Fixture.reported_run "0"];
        temporal := Fixture.engine true |})
  ∧ ∃ r2 w2,
      create_batch_export_run 1 "E1-2023-01-02T00:00:00Z" "attempt-1" "E1"
        Fixture.jan1 Fixture.jan2
        {| db := Fixture.store [Fixture.reported_run "0"];
           temporal := Fixture.engine true |}
      = (Ok r2, w2)
      ∧ run_pk r2 ≠ run_pk (Fixture.reported_run "0")
      ∧ batch_export_runs (db w2)
        = batch_export_runs (db Fixture.w0) ++ [Fixture.reported_run "0"; r2]
      ∧ length (runs_of "E1-2023-01-02T00:00:00Z" "attempt-1" w2)
        = 2 + length (runs_of "E1-2023-01-02T00:00:00Z" "attempt-1" Fixture.w0).
Proof.
  assert (create_batch_export_run 1 "E1-2023-01-02T00:00:00Z" "attempt-1" "E1"
            Fixture.jan1 Fixture.jan2 Fixture.w0
          = (Ok (Fixture.reported_run "0"),
             {| db := Fixture.store [Fixture.reported_run "0"];
                temporal := Fixture.engine true |})) as Hfirst
    by (vm_compute; reflexivity).
  split; [exact Hfirst|].
  exact (create_batch_export_run_twice _ _ _ _ _ _ _ _ _ Hfirst).
Defined.

(** C1 as the specification states it fails: two calls with the same workflow
    id and run id leave two run records of that execution, not one. *)
Lemma create_run_twice_makes_two_records :
  ¬ create_run_is_idempotent 1 "E1-2023-01-02T00:00:00Z" "attempt-1" "E1"
      Fixture.jan1 Fixture.jan2 Fixture.w0.
Proof. unfold create_run_is_idempotent. vm_compute. discriminate. Qed.

Lemma update_batch_export_run_status_overwrites_witness :
  ("R1" ∈ run_pk <$> batch_export_runs (db Fixture.w_done))
  ∧ ∃ w',
      update_batch_export_run_status "R1" RUNNING Fixture.w_done = (Ok (), w')
      ∧ status_of "R1" w'
        = replicate (length (status_of "R1" Fixture.w_done)) RUNNING
      ∧ status_of "R1" w' ≠ []
      ∧ filter (λ r, run_pk r ≠ "R1") (batch_export_runs (db w'))
        = filter (λ r, run_pk r ≠ "R1") (batch_export_runs (db Fixture.w_done))
      ∧ temporal w' = temporal Fixture.w_done.
Proof.
  assert ("R1" ∈ run_pk <$> batch_export_runs (db Fixture.w_done)) as Hin
    by (simpl; left).
  split; [exact Hin|].
  exact (update_batch_export_run_status_overwrites "R1" RUNNING Fixture.w_done Hin).
Defined.

(** C2 as the specification states it fails: a completed run that is updated
    to [RUNNING] is stored as [RUNNING]. *)
Lemma completed_run_status_is_overwritten :
  ¬ terminal_status_is_frozen "R1" RUNNING Fixture.w_done.
Proof.
  intros Hfrozen.
  assert (Forall (λ s, is_terminal s = true) (status_of "R1" Fixture.w_done))
    as Hterminal by (by repeat constructor).
  apply Hfrozen in Hterminal. vm_compute in Hterminal. discriminate.
Qed.

(** C3 on the code: a backfill of [E2], whose destination type [Snowflake] is
    not registered, raises the [KeyError] of the registry lookup and sends
    nothing to the engine, but the run record it inserted before the lookup
    is still in the store. *)
Theorem backfill_export_unregistered_keeps_run :
  (backfill_export "E2" (Some Fixture.jan1) (Some Fixture.jan2) Fixture.w0).1
  = Raise (KeyError "Snowflake")
  ∧ batch_export_runs
      (db (backfill_export "E2" (Some Fixture.jan1) (Some Fixture.jan2) Fixture.w0).2)
    = [Fixture.backfill_run "0" "E2"]
  ∧ requests
      (temporal
         (backfill_export "E2" (Some Fixture.jan1) (Some Fixture.jan2) Fixture.w0).2)
    = [].
Proof. by vm_compute. Qed.

Lemma E1_fits_S3 : fits_S3 Fixture.s3_config.
Proof. split; apply (bool_decide_unpack _); by vm_compute. Qed.

(** C4 on the code: the backfill of [E1] over the first of January inserts
    the run record with both bounds and returns it, but the engine has been
    sent nothing: [execute_workflow] is called without [await], so the
    execution the claim describes is never issued. *)
Theorem backfill_export_issues_no_execution :
  backfill_export "E1" (Some Fixture.jan1) (Some Fixture.jan2) Fixture.w0
  = (Ok (Fixture.backfill_run "0" "E1"),
     {| db := Fixture.store [Fixture.backfill_run "0" "E1"];
        temporal := Fixture.engine true |})
  ∧ requests
      (temporal
         (backfill_export "E1" (Some Fixture.jan1) (Some Fixture.jan2) Fixture.w0).2)
    = [].
Proof. split; vm_compute; reflexivity. Qed.

(** C9 on the code: a backfill of [E1] next to an earlier run returns a run
    record with the new primary key [0], and the record of the requests the
    engine was sent is still empty: no execution carries that key, since the
    call that is given [id=str(backfill_run.pk)] is never awaited. *)
Theorem backfill_export_execution_id_is_never_sent :
  (backfill_export "E1" (Some Fixture.jan1) None Fixture.w_done).1
  = Ok {| run_pk := "0";
          run_team := None;
          run_batch_export_id := "E1";
          run_workflow_id := None;
          run_run_id := None;
          run_status := STARTING;
          run_data_interval_start := Some Fixture.jan1;
          run_data_interval_end := None |}
  ∧ requests
      (temporal (backfill_export "E1" (Some Fixture.jan1) None Fixture.w_done).2)
    = requests (temporal Fixture.w_done)
  ∧ requests (temporal Fixture.w_done) = [].
Proof. repeat split; vm_compute; reflexivity. Qed.

(** C5 as the specification states it fails: with the engine unreachable, a
    pause of [E1] raises the very error of the engine call. *)
Lemma pause_raises_the_engine_error :
  ¬ raises_PartialSyncFailure (pause_schedule "E1" None)
      (pause_batch_export "E1" None) Fixture.w_down.
Proof.
  intros Hdistinct.
  destruct (Hdistinct (RPCError UNAVAILABLE) eq_refl) as (e' & Hraised & Hother).
  vm_compute in Hraised. injection Hraised as <-. by apply Hother.
Qed.

Lemma update_batch_export_run_status_not_found_witness :
  ("R2" ∉ run_pk <$> batch_export_runs (db Fixture.w_done))
  ∧ update_batch_export_run_status "R2" FAILED Fixture.w_done
    = (Raise (ValueError "BatchExportRun with id R2 not found."), Fixture.w_done).
Proof.
  assert ("R2" ∉ run_pk <$> batch_export_runs (db Fixture.w_done)) as Hno
    by (apply (bool_decide_unpack _); by vm_compute).
  split; [exact Hno|].
  exact (update_batch_export_run_status_not_found "R2" FAILED Fixture.w_done Hno).
Defined.

Lemma create_then_describe_paused_witness :
  ∃ w',
    create_batch_export Fixture.E1 Fixture.w0 = (Ok (), w')
    ∧ ∃ description w'',
        describe_schedule (str (be_id Fixture.E1)) w' = (Ok description, w'')
        ∧ description_id description = str (be_id Fixture.E1)
        ∧ state_paused (schedule_state (description_schedule description))
          = be_paused Fixture.E1.
Proof.
  destruct (create_batch_export_succeeds Fixture.E1 Fixture.w0
              eq_refl E1_fits_S3 eq_refl eq_refl) as [w' Hcreated].
  exists w'. split; [exact Hcreated|].
  exact (create_then_describe_paused Fixture.E1 Fixture.w0 w' Hcreated).
Defined.

Lemma pause_batch_export_unknown_id_witness :
  ("E9" ∉ be_id <$> batch_exports (db Fixture.w0))
  ∧ (pause_batch_export "E9" None Fixture.w0 = pause_schedule "E9" None Fixture.w0
     ∧ db (pause_batch_export "E9" None Fixture.w0).2 = db Fixture.w0
     ∧ requests (temporal (pause_batch_export "E9" None Fixture.w0).2)
       = requests (temporal Fixture.w0) ++ [PauseSchedule "E9" None])
  ∧ (unpause_batch_export "E9" None Fixture.w0
     = unpause_schedule "E9" None Fixture.w0
     ∧ db (unpause_batch_export "E9" None Fixture.w0).2 = db Fixture.w0
     ∧ requests (temporal (unpause_batch_export "E9" None Fixture.w0).2)
       = requests (temporal Fixture.w0) ++ [UnpauseSchedule "E9" None]).
Proof.
  assert ("E9" ∉ be_id <$> batch_exports (db Fixture.w0)) as Hno
    by (apply (bool_decide_unpack _); by vm_compute).
  split; [exact Hno|].
  exact (pause_batch_export_unknown_id "E9" None Fixture.w0 Hno).
Defined.

(** ** Further properties of the service and of its activities *)

Section Coverage.
Context `{Runtime}.

(** *** What the operations leave alone *)

(** X1: The functions that talk to the engine never write to the store; in
    particular [create_batch_export] saves neither the export nor its flag. *)
Theorem schedule_functions_keep_the_store (w : World) :
  (∀ e, db (create_batch_export e w).2 = db w)
  ∧ (∀ id schedule attributes, db (create_schedule id schedule attributes w).2 = db w)
  ∧ (∀ id note, db (pause_schedule id note w).2 = db w)
  ∧ (∀ id note, db (unpause_schedule id note w).2 = db w)
  ∧ (∀ id, db (delete_schedule id w).2 = db w)
  ∧ (∀ id, db (describe_schedule id w).2 = db w).
Proof.
  repeat split; intros; try apply rpc_db.
  unfold create_batch_export, bind, lift.
  destruct (getitem _ _) as [[workflow workflow_inputs]|]; [|done].
  destruct (result_bind _ _) as [arg|]; [|done].
  apply rpc_db.
Qed.

Lemma update_batch_export_run_status_unfold run_id status (w : World) :
  update_batch_export_run_status run_id status w
  = (match length (filter (λ r, run_pk r = run_id) (batch_export_runs (db w))) with
     | O => Raise (ValueError ("BatchExportRun with id " +:+ str run_id +:+ " not found."))
     | S _ => Ok ()
     end,
     {| db := {| teams := teams (db w);
                 batch_exports := batch_exports (db w);
                 batch_export_runs :=
                   (λ r, if decide (run_pk r = run_id) then with_status status r else r)
                   <$> batch_export_runs (db w) |};
        temporal := temporal w |}).
Proof.
  unfold update_batch_export_run_status, bind, write_runs, qs_update.
  by destruct (length _).
Qed.

(** What [create_batch_export_run] does to the world, whatever it returns. *)
Lemma create_batch_export_run_world team workflow_id run_id batch_export_id
    interval_start interval_end (w : World) :
  (∃ e, create_batch_export_run team workflow_id run_id batch_export_id
          interval_start interval_end w = (Raise e, w))
  ∨ ∃ r, create_batch_export_run team workflow_id run_id batch_export_id
           interval_start interval_end w
         = (Ok r, {| db := {| teams := teams (db w);
                              batch_exports := batch_exports (db w);
                              batch_export_runs := batch_export_runs (db w) ++ [r] |};
                     temporal := temporal w |})
         ∧ run_pk r = new_pk (batch_export_runs (db w)).
Proof.
  unfold create_batch_export_run, bind, query, lift, BatchExportRun_save,
    write_runs.
  destruct (qs_get _ _ _) as [t|]; [|left; eauto].
  destruct (fromisoformat interval_start) as [ds|]; [|left; eauto].
  destruct (fromisoformat interval_end) as [de|]; [|left; eauto].
  simpl. case_decide; [|left; eauto].
  right. eauto.
Qed.

(** X2: The functions that keep the run records never talk to the engine: no
    schedule changes and no request is sent. *)
Theorem run_tracker_keeps_the_engine (w : World) :
  (∀ team workflow_id run_id batch_export_id interval_start interval_end,
     temporal (create_batch_export_run team workflow_id run_id batch_export_id
                 interval_start interval_end w).2 = temporal w)
  ∧ (∀ run_id status,
       temporal (update_batch_export_run_status run_id status w).2 = temporal w).
Proof.
  split.
  - intros.
    destruct (create_batch_export_run_world team workflow_id run_id
                batch_export_id interval_start interval_end w)
      as [[e ->]|(r & -> & _)]; done.
  - intros. by rewrite update_batch_export_run_status_unfold.
Qed.

(** X3: When [create_batch_export_run] raises, whether on the team, on a bound
    or on the insert, the world is as before. *)
Theorem create_batch_export_run_all_or_nothing team workflow_id run_id
    batch_export_id interval_start interval_end (w : World) e :
  (create_batch_export_run team workflow_id run_id batch_export_id
     interval_start interval_end w).1 = Raise e →
  (create_batch_export_run team workflow_id run_id batch_export_id
     interval_start interval_end w).2 = w.
Proof.
  destruct (create_batch_export_run_world team workflow_id run_id
              batch_export_id interval_start interval_end w)
    as [[e' ->]|(r & -> & _)]; done.
Qed.

(** X4: The team is looked up first: without a team of that id
    [create_batch_export_run] raises [Team.DoesNotExist], whatever the
    bounds are, and the world is as before. *)
Theorem create_batch_export_run_missing_team team workflow_id run_id
    batch_export_id interval_start interval_end (w : World) :
  team ∉ team_id <$> teams (db w) →
  create_batch_export_run team workflow_id run_id batch_export_id
    interval_start interval_end w = (Raise (DoesNotExist "Team"), w).
Proof.
  intros Hno.
  unfold create_batch_export_run, bind, query, qs_get.
  rewrite filter_no_match; [done|].
  intros t Ht Heq. apply Hno. rewrite <- Heq. by apply list_elem_of_fmap_2.
Qed.

(** *** Status updates *)

Section StatusRows.
Context (run_id : UUID).
Local Abbreviation matching := (λ r : BatchExportRun, run_pk r = run_id).
Local Abbreviation set_to status :=
  (λ r : BatchExportRun,
     if decide (run_pk r = run_id) then with_status status r else r).

Lemma set_to_pk status (rows : list BatchExportRun) :
  run_pk <$> (set_to status <$> rows) = run_pk <$> rows.
Proof.
  rewrite <- list_fmap_compose. apply list_fmap_ext. intros i r Hi.
  simpl. by case_decide.
Qed.

Lemma set_to_twice s1 s2 (rows : list BatchExportRun) :
  set_to s2 <$> (set_to s1 <$> rows) = set_to s2 <$> rows.
Proof.
  rewrite <- list_fmap_compose. apply list_fmap_ext. intros i r Hi.
  simpl.
  destruct (decide (run_pk r = run_id)) as [Hr|Hr]; simpl.
  - by rewrite decide_True.
  - by rewrite decide_False.
Qed.

Lemma set_to_without_status status (rows : list BatchExportRun) :
  without_status <$> (set_to status <$> rows) = without_status <$> rows.
Proof.
  rewrite <- list_fmap_compose. apply list_fmap_ext. intros i r Hi.
  simpl. by case_decide.
Qed.

Lemma set_to_count status (rows : list BatchExportRun) :
  length (filter matching (set_to status <$> rows)) = length (filter matching rows).
Proof.
  by rewrite update_status_matching, length_fmap.
Qed.

End StatusRows.

(** X5: two status updates of one run in a row are the second alone. *)
Theorem update_batch_export_run_status_last_wins run_id s1 s2 (w : World) :
  update_batch_export_run_status run_id s2
    (update_batch_export_run_status run_id s1 w).2
  = update_batch_export_run_status run_id s2 w.
Proof.
  rewrite !update_batch_export_run_status_unfold. simpl.
  by rewrite set_to_twice, set_to_count.
Qed.

(** X6: a status update changes the status column and nothing else. *)
Theorem update_batch_export_run_status_only_status run_id status (w : World) :
  without_status <$> batch_export_runs (db (update_batch_export_run_status run_id status w).2)
  = without_status <$> batch_export_runs (db w)
  ∧ teams (db (update_batch_export_run_status run_id status w).2) = teams (db w)
  ∧ batch_exports (db (update_batch_export_run_status run_id status w).2)
    = batch_exports (db w).
Proof.
  rewrite update_batch_export_run_status_unfold. simpl.
  by rewrite set_to_without_status.
Qed.

Lemma update_appended_run run_id status (rows : list BatchExportRun) r :
  run_id ∉ run_pk <$> rows → run_pk r = run_id →
  filter (λ r, run_pk r = run_id) (rows ++ [r]) = [r]
  ∧ ((λ r, if decide (run_pk r = run_id) then with_status status r else r)
     <$> rows ++ [r]) = rows ++ [with_status status r].
Proof.
  intros Hnew Hr.
  assert (∀ x, x ∈ rows → ¬ run_pk x = run_id) as Hno.
  { intros x Hx Heq. apply Hnew. rewrite <- Heq. by apply list_elem_of_fmap_2. }
  rewrite filter_app, fmap_app, filter_no_match, update_no_match by done.
  simpl. rewrite filter_cons_True by done. by rewrite decide_True.
Qed.

(** X7: the run that [create_batch_export_run] returns is the one a status update
    under its primary key reaches, and the only one. *)
Theorem update_reaches_the_created_run team workflow_id run_id batch_export_id
    interval_start interval_end status (w w1 : World) r1 :
  create_batch_export_run team workflow_id run_id batch_export_id
    interval_start interval_end w = (Ok r1, w1) →
  update_batch_export_run_status (run_pk r1) status w1
  = (Ok (),
     {| db := {| teams := teams (db w);
                 batch_exports := batch_exports (db w);
                 batch_export_runs :=
                   batch_export_runs (db w) ++ [with_status status r1] |};
        temporal := temporal w |}).
Proof.
  intros Hcreated.
  destruct (create_batch_export_run_world team workflow_id run_id
              batch_export_id interval_start interval_end w)
    as [[e He]|(r & Hr & Hpk)]; [congruence|].
  rewrite Hr in Hcreated. injection Hcreated as -> <-.
  rewrite update_batch_export_run_status_unfold. simpl.
  destruct (update_appended_run (run_pk r1) status (batch_export_runs (db w)) r1)
    as [-> ->]; [|done|done].
  rewrite Hpk. apply new_pk_fresh.
Qed.

(** *** Primary keys *)

(** X9: with distinct primary keys a status update rewrites exactly one record. *)
Theorem update_batch_export_run_status_one_record run_id status (w : World) :
  NoDup (run_pk <$> batch_export_runs (db w)) →
  run_id ∈ run_pk <$> batch_export_runs (db w) →
  status_of run_id (update_batch_export_run_status run_id status w).2 = [status].
Proof.
  intros Hk Hin.
  rewrite update_batch_export_run_status_unfold. unfold status_of. simpl.
  rewrite update_status_matching, statuses_after_update.
  assert (length (filter (λ r, run_pk r = run_id) (batch_export_runs (db w))) = 1)
    as ->; [|done].
  revert Hk Hin. generalize (batch_export_runs (db w)) as rows.
  induction rows as [|x rows IH]; intros Hk Hin; [by apply elem_of_nil in Hin|].
  rewrite fmap_cons in Hk, Hin. apply NoDup_cons in Hk as [Hx Hk].
  destruct (decide (run_pk x = run_id)) as [Heq|Hne].
  - rewrite filter_cons_True by done. simpl. f_equal.
    rewrite filter_no_match; [done|].
    intros r Hr Hrid. apply Hx. rewrite Heq, <- Hrid. by apply list_elem_of_fmap_2.
  - rewrite filter_cons_False by done. apply IH; [done|].
    apply elem_of_cons in Hin as [Hin|Hin]; [congruence|done].
Qed.

(** *** Pausing and unpausing, on the store *)

Section FlagRows.
Context (batch_export_id : string).
Local Abbreviation flag b :=
  (λ e : BatchExport,
     if decide (be_id e = batch_export_id) then with_paused b e else e).

Lemma flag_twice b1 b2 (rows : list BatchExport) :
  flag b2 <$> (flag b1 <$> rows) = flag b2 <$> rows.
Proof.
  rewrite <- list_fmap_compose. apply list_fmap_ext. intros i e Hi.
  simpl.
  destruct (decide (be_id e = batch_export_id)) as [He|He]; simpl.
  - by rewrite decide_True.
  - by rewrite decide_False.
Qed.

Lemma flag_without_paused b (rows : list BatchExport) :
  without_paused <$> (flag b <$> rows) = without_paused <$> rows.
Proof.
  rewrite <- list_fmap_compose. apply list_fmap_ext. intros i e Hi.
  simpl. by case_decide.
Qed.

Lemma flag_others b (rows : list BatchExport) :
  filter (λ e, be_id e ≠ batch_export_id) (flag b <$> rows)
  = filter (λ e, be_id e ≠ batch_export_id) rows.
Proof.
  induction rows as [|x rows IH]; [done|].
  rewrite fmap_cons.
  destruct (decide (be_id x = batch_export_id)) as [Hx|Hx].
  - rewrite !filter_cons_False by (simpl; tauto). done.
  - rewrite !filter_cons_True by done. by f_equal.
Qed.

Lemma pause_batch_export_db note (w : World) :
  db (pause_batch_export batch_export_id note w).2
  = {| teams := teams (db w);
       batch_exports := flag true <$> batch_exports (db w);
       batch_export_runs := batch_export_runs (db w) |}.
Proof.
  rewrite pause_batch_export_unfold. unfold pause_schedule. by rewrite rpc_db.
Qed.

Lemma unpause_batch_export_db note (w : World) :
  db (unpause_batch_export batch_export_id note w).2
  = {| teams := teams (db w);
       batch_exports := flag false <$> batch_exports (db w);
       batch_export_runs := batch_export_runs (db w) |}.
Proof.
  rewrite unpause_batch_export_unfold. unfold unpause_schedule. by rewrite rpc_db.
Qed.

(** X10: of a pause and an unpause of one export in a row, in either order or
    twice the same, the store shows the last; the engine has been sent
    both. *)
Theorem pause_and_unpause_in_a_row note1 note2 (w : World) :
  db (unpause_batch_export batch_export_id note2
        (pause_batch_export batch_export_id note1 w).2).2
  = db (unpause_batch_export batch_export_id note2 w).2
  ∧ db (pause_batch_export batch_export_id note2
          (unpause_batch_export batch_export_id note1 w).2).2
    = db (pause_batch_export batch_export_id note2 w).2
  ∧ db (pause_batch_export batch_export_id note2
          (pause_batch_export batch_export_id note1 w).2).2
    = db (pause_batch_export batch_export_id note1 w).2
  ∧ requests (temporal (unpause_batch_export batch_export_id note2
                          (pause_batch_export batch_export_id note1 w).2).2)
    = requests (temporal w)
      ++ [PauseSchedule batch_export_id note1; UnpauseSchedule batch_export_id note2].
Proof.
  repeat (progress rewrite ?pause_batch_export_db, ?unpause_batch_export_db).
  simpl. rewrite !flag_twice. repeat split.
  rewrite unpause_batch_export_unfold, unpause_schedule_requests. simpl.
  rewrite pause_batch_export_unfold, pause_schedule_requests. simpl.
  by rewrite <- app_assoc.
Qed.

(** X11: a pause or an unpause changes the flag of the exports of the given id
    and nothing else in the store. *)
Theorem pause_changes_the_flag_only note (w : World) :
  (without_paused <$> batch_exports (db (pause_batch_export batch_export_id note w).2)
   = without_paused <$> batch_exports (db w)
   ∧ filter (λ e, be_id e ≠ batch_export_id)
       (batch_exports (db (pause_batch_export batch_export_id note w).2))
     = filter (λ e, be_id e ≠ batch_export_id) (batch_exports (db w))
   ∧ teams (db (pause_batch_export batch_export_id note w).2) = teams (db w)
   ∧ batch_export_runs (db (pause_batch_export batch_export_id note w).2)
     = batch_export_runs (db w))
  ∧ (without_paused <$> batch_exports (db (unpause_batch_export batch_export_id note w).2)
     = without_paused <$> batch_exports (db w)
     ∧ filter (λ e, be_id e ≠ batch_export_id)
         (batch_exports (db (unpause_batch_export batch_export_id note w).2))
       = filter (λ e, be_id e ≠ batch_export_id) (batch_exports (db w))
     ∧ teams (db (unpause_batch_export batch_export_id note w).2) = teams (db w)
     ∧ batch_export_runs (db (unpause_batch_export batch_export_id note w).2)
       = batch_export_runs (db w)).
Proof.
  rewrite pause_batch_export_db, unpause_batch_export_db. simpl.
  by rewrite !flag_without_paused, !flag_others.
Qed.

End FlagRows.

(** *** Backfills, whatever their outcome *)

(** X12: no export of that id: [get] raises, and nothing has happened. *)
Theorem backfill_export_missing_export batch_export_id start_at end_at (w : World) :
  batch_export_id ∉ be_id <$> batch_exports (db w) →
  backfill_export batch_export_id start_at end_at w
  = (Raise (DoesNotExist "BatchExport"), w).
Proof.
  intros Hno. unfold backfill_export, bind, query, qs_get.
  rewrite filter_no_match; [done|].
  intros e He Heq. apply Hno. rewrite <- Heq. by apply list_elem_of_fmap_2.
Qed.

(** X13: the run record is the first thing a backfill writes: once the export is
    found, the store ends up with that one record more, whether the call
    returns or raises, and the schedules of the engine are as they were. *)
Theorem backfill_export_inserts_first e start_at end_at (w : World) :
  filter (λ x, be_id x = be_id e) (batch_exports (db w)) = [e] →
  db (backfill_export (be_id e) start_at end_at w).2
  = {| teams := teams (db w);
       batch_exports := batch_exports (db w);
       batch_export_runs :=
         batch_export_runs (db w)
         ++ [{| run_pk := new_pk (batch_export_runs (db w));
                run_team := None;
                run_batch_export_id := be_id e;
                run_workflow_id := None;
                run_run_id := None;
                run_status := STARTING;
                run_data_interval_start := start_at;
                run_data_interval_end := end_at |}] |}
  ∧ schedules (temporal (backfill_export (be_id e) start_at end_at w).2)
    = schedules (temporal w).
Proof.
  intros Hget.
  unfold backfill_export, bind, query, BatchExportRun_objects_create,
    write_runs, lift, never_awaited, ret.
  rewrite (qs_get_unique _ _ _ _ Hget). simpl.
  destruct (getitem _ _) as [[workflow inputs]|]; [|done].
  by destruct (result_bind _ _) as [arg|].
Qed.

(** *** The input dataclass *)

Lemma asdict_S3_lookup i :
  asdict_S3 i !! "bucket_name" = Some (bucket_name i)
  ∧ asdict_S3 i !! "region" = Some (region i)
  ∧ asdict_S3 i !! "key_template" = Some (key_template i)
  ∧ asdict_S3 i !! "batch_window_size" = Some (batch_window_size i)
  ∧ asdict_S3 i !! "team_id" = Some (s3_team_id i)
  ∧ asdict_S3 i !! "batch_export_id" = Some (s3_batch_export_id i)
  ∧ asdict_S3 i !! "table_name" = Some (table_name i)
  ∧ asdict_S3 i !! "file_format" = Some (file_format i)
  ∧ asdict_S3 i !! "partition_key" = Some (partition_key i)
  ∧ asdict_S3 i !! "aws_access_key_id" = Some (aws_access_key_id i)
  ∧ asdict_S3 i !! "aws_secret_access_key" = Some (aws_secret_access_key i)
  ∧ asdict_S3 i !! "data_interval_end" = Some (data_interval_end i).
Proof.
  repeat split;
    (apply elem_of_list_to_map_1; [apply S3_fields_NoDup|]; simpl;
     repeat (first [apply list_elem_of_here | apply list_elem_of_further])).
Qed.

Lemma S3_defaults_lookup :
  S3_defaults !! "bucket_name" = None
  ∧ S3_defaults !! "region" = None
  ∧ S3_defaults !! "key_template" = None
  ∧ S3_defaults !! "batch_window_size" = None
  ∧ S3_defaults !! "team_id" = None
  ∧ S3_defaults !! "batch_export_id" = None
  ∧ S3_defaults !! "table_name" = Some (VStr "events")
  ∧ S3_defaults !! "file_format" = Some (VStr "CSVWithNames")
  ∧ S3_defaults !! "partition_key" = Some VNone
  ∧ S3_defaults !! "aws_access_key_id" = Some VNone
  ∧ S3_defaults !! "aws_secret_access_key" = Some VNone
  ∧ S3_defaults !! "data_interval_end" = Some VNone.
Proof. repeat split; by vm_compute. Qed.

Lemma lookup_union_default (kw defaults : gmap string PyVal) k d :
  defaults !! k = Some d → (kw ∪ defaults) !! k = Some (default d (kw !! k)).
Proof. intros Hd. rewrite lookup_union, Hd. by destruct (kw !! k). Qed.

Lemma asdict_new_S3BatchExportInputs_lookup (kw : gmap string PyVal) i field :
  new_S3BatchExportInputs kw = Ok i →
  asdict_S3 i !! field = (kw ∪ S3_defaults) !! field.
Proof.
  unfold new_S3BatchExportInputs. case_decide as Hdom; [|done].
  destruct (kw !! "bucket_name") as [b|] eqn:Hb; [|done].
  destruct (kw !! "region") as [r|] eqn:Hr; [|done].
  destruct (kw !! "key_template") as [k|] eqn:Hk; [|done].
  destruct (kw !! "batch_window_size") as [s|] eqn:Hs; [|done].
  destruct (kw !! "team_id") as [t|] eqn:Ht; [|done].
  destruct (kw !! "batch_export_id") as [e|] eqn:He; [|done].
  intros [= <-].
  destruct (S3_defaults_lookup)
    as (D1 & D2 & D3 & D4 & D5 & D6 & D7 & D8 & D9 & D10 & D11 & D12).
  destruct (decide (field ∈ S3_fields)) as [Hin|Hout].
  - destruct (asdict_S3_lookup
                {| bucket_name := b; region := r; key_template := k;
                   batch_window_size := s; s3_team_id := t; s3_batch_export_id := e;
                   table_name := default (VStr "events") (kw !! "table_name");
                   file_format := default (VStr "CSVWithNames") (kw !! "file_format");
                   partition_key := default VNone (kw !! "partition_key");
                   aws_access_key_id := default VNone (kw !! "aws_access_key_id");
                   aws_secret_access_key := default VNone (kw !! "aws_secret_access_key");
                   data_interval_end := default VNone (kw !! "data_interval_end") |})
      as (A1 & A2 & A3 & A4 & A5 & A6 & A7 & A8 & A9 & A10 & A11 & A12).
    unfold S3_fields in Hin.
    repeat (apply elem_of_cons in Hin as [->|Hin];
            [first [ by rewrite A1, lookup_union_l, Hb
                   | by rewrite A2, lookup_union_l, Hr
                   | by rewrite A3, lookup_union_l, Hk
                   | by rewrite A4, lookup_union_l, Hs
                   | by rewrite A5, lookup_union_l, Ht
                   | by rewrite A6, lookup_union_l, He
                   | by rewrite A7, (lookup_union_default _ _ _ _ D7)
                   | by rewrite A8, (lookup_union_default _ _ _ _ D8)
                   | by rewrite A9, (lookup_union_default _ _ _ _ D9)
                   | by rewrite A10, (lookup_union_default _ _ _ _ D10)
                   | by rewrite A11, (lookup_union_default _ _ _ _ D11)
                   | by rewrite A12, (lookup_union_default _ _ _ _ D12) ]|]).
    by apply elem_of_nil in Hin.
  - unfold asdict_S3. rewrite not_elem_of_list_to_map_1 by exact Hout.
    symmetry. apply lookup_union_None_2.
    + apply not_elem_of_dom. intros Hfield. apply Hout.
      by apply (elem_of_list_to_set (C := gset string)), Hdom.
    + apply not_elem_of_list_to_map_1. intros Hfield. apply Hout.
      simpl in Hfield. unfold S3_fields.
      repeat (apply elem_of_cons in Hfield as [->|Hfield];
              [repeat (first [apply list_elem_of_here | apply list_elem_of_further])|]).
      by apply elem_of_nil in Hfield.
Qed.

(** X14: an instance as a dictionary: the keywords it was made from, and the
    defaults for the fields that no keyword named. *)
Theorem asdict_of_new_S3BatchExportInputs (kw : gmap string PyVal) i :
  new_S3BatchExportInputs kw = Ok i → asdict_S3 i = kw ∪ S3_defaults.
Proof.
  intros Hnew. apply map_eq. intros field.
  by apply asdict_new_S3BatchExportInputs_lookup.
Qed.

(** X15: building an instance from the dictionary of an instance gives it back. *)
Theorem new_S3BatchExportInputs_of_asdict i :
  new_S3BatchExportInputs (asdict_S3 i) = Ok i.
Proof.
  destruct (asdict_S3_lookup i)
    as (A1 & A2 & A3 & A4 & A5 & A6 & A7 & A8 & A9 & A10 & A11 & A12).
  unfold new_S3BatchExportInputs.
  rewrite decide_True.
  - rewrite A1, A2, A3, A4, A5, A6, A7, A8, A9, A10, A11, A12. simpl.
    by destruct i.
  - unfold asdict_S3. by rewrite dom_list_to_map_L.
Qed.

Lemma new_S3BatchExportInputs_Ok_inv (kw : gmap string PyVal) i :
  new_S3BatchExportInputs kw = Ok i →
  dom kw ⊆ (list_to_set S3_fields : gset string)
  ∧ Forall (λ field, field ∈ dom kw) (S3_required ++ ["team_id"; "batch_export_id"]).
Proof.
  unfold new_S3BatchExportInputs.
  case_decide as Hdom; [|done].
  destruct (kw !! "bucket_name") as [b|] eqn:Hb; [|done].
  destruct (kw !! "region") as [r|] eqn:Hr; [|done].
  destruct (kw !! "key_template") as [k|] eqn:Hk; [|done].
  destruct (kw !! "batch_window_size") as [s|] eqn:Hs; [|done].
  destruct (kw !! "team_id") as [t|] eqn:Ht; [|done].
  destruct (kw !! "batch_export_id") as [e|] eqn:He; [|done].
  intros _. split; [done|].
  unfold S3_required. simpl.
  repeat (apply Forall_cons; split; [apply elem_of_dom; eauto|]).
  apply Forall_nil_2.
Qed.

Lemma new_S3BatchExportInputs_Raise (kw : gmap string PyVal) e :
  new_S3BatchExportInputs kw = Raise e → e = TypeError.
Proof.
  unfold new_S3BatchExportInputs.
  case_decide; [|by intros [= <-]].
  repeat (match goal with
          | |- context [match ?o with Some _ => _ | None => _ end] =>
              destruct o; [|by intros [= <-]]
          end).
  done.
Qed.

(** X16: the constructor accepts exactly the keyword sets that name fields only
    and name every field without a default; every other set is a
    [TypeError]. *)
Theorem new_S3BatchExportInputs_accepts (kw : gmap string PyVal) :
  ((∃ i, new_S3BatchExportInputs kw = Ok i)
   ↔ dom kw ⊆ (list_to_set S3_fields : gset string)
     ∧ Forall (λ field, field ∈ dom kw)
         (S3_required ++ ["team_id"; "batch_export_id"]))
  ∧ ((∃ i, new_S3BatchExportInputs kw = Ok i)
     ∨ new_S3BatchExportInputs kw = Raise TypeError).
Proof.
  split; [split|].
  - intros [i Hi]. by apply (new_S3BatchExportInputs_Ok_inv kw i).
  - intros [Hdom Hreq]. by apply new_S3BatchExportInputs_Ok.
  - destruct (new_S3BatchExportInputs kw) as [i|e] eqn:Hi; [left; eauto|right].
    by rewrite (new_S3BatchExportInputs_Raise kw e Hi).
Qed.

(** *** Destination configurations *)

Lemma keywords_outcome written (config : gmap string PyVal) :
  (keywords written config = Ok (list_to_map written ∪ config)
   ∧ Forall (λ kv, kv.1 ∉ dom config) written)
  ∨ (keywords written config = Raise TypeError
     ∧ ¬ Forall (λ kv, kv.1 ∉ dom config) written).
Proof.
  destruct (decide (Forall (λ kv, kv.1 ∉ dom config) written)) as [Hnew|Hold].
  - left. split; [by apply keywords_new|done].
  - right. split; [|done]. unfold keywords.
    destruct (forallb _ _) eqn:Hall; [|done].
    destruct Hold. rewrite Forall_forall. intros kv Hkv.
    rewrite forallb_forall in Hall.
    apply list_elem_of_In, Hall in Hkv. by apply bool_decide_eq_true in Hkv.
Qed.

(** What the service gets when it builds an input: an instance whose
    dictionary is the written keywords, the configuration and the defaults,
    or a [TypeError]. *)
Lemma S3_input_of_outcome written (config : gmap string PyVal) :
  let kw := list_to_map written ∪ config in
  let fit :=
    Forall (λ kv, kv.1 ∉ dom config) written
    ∧ dom kw ⊆ (list_to_set S3_fields : gset string)
    ∧ Forall (λ field, field ∈ dom kw) (S3_required ++ ["team_id"; "batch_export_id"]) in
  (fit ∧ ∃ i, S3_input_of written config = Ok (S3Inputs i)
              ∧ asdict_S3 i = kw ∪ S3_defaults)
  ∨ (¬ fit ∧ S3_input_of written config = Raise TypeError).
Proof.
  intros kw fit. unfold S3_input_of.
  destruct (keywords_outcome written config) as [[-> Hnew]|[-> Hold]]; simpl.
  - fold kw.
    destruct (new_S3BatchExportInputs kw) as [i|e] eqn:Hi; simpl.
    + left. split.
      * split; [done|]. by apply (new_S3BatchExportInputs_Ok_inv kw i).
      * exists i. split; [done|]. apply map_eq. intros field.
        by apply asdict_new_S3BatchExportInputs_lookup.
    + right. split.
      * intros (_ & Hdom & Hreq).
        destruct (new_S3BatchExportInputs_Ok kw Hdom Hreq) as [i Hi'].
        congruence.
      * by rewrite (new_S3BatchExportInputs_Raise kw e Hi).
  - right. split; [|done]. by intros [? _].
Qed.

Lemma fits_written (ws settings : list string) written
    (config : gmap string PyVal) :
  written.*1 = ws →
  Forall (λ k, k ∈ settings ∨ k ∈ ws) S3_fields →
  Forall (λ k, k ∈ S3_fields ∧ k ∉ ws) settings →
  Forall (λ k, k ∈ S3_fields) ws →
  Forall (λ k, k ∈ settings) S3_required →
  Forall (λ k, k ∈ ws) ["team_id"; "batch_export_id"] →
  ((list_to_set S3_required : gset string) ⊆ dom config
   ∧ dom config ⊆ (list_to_set settings : gset string))
  ↔ (Forall (λ kv, kv.1 ∉ dom config) written
     ∧ dom (list_to_map written ∪ config) ⊆ (list_to_set S3_fields : gset string)
     ∧ Forall (λ field, field ∈ dom (list_to_map written ∪ config))
         (S3_required ++ ["team_id"; "batch_export_id"])).
Proof.
  intros Hws Hcover Hsettings Hwritten Hrequired Hgiven.
  rewrite Forall_forall in Hcover. rewrite Forall_forall in Hsettings.
  rewrite Forall_forall in Hwritten. rewrite Forall_forall in Hrequired.
  rewrite Forall_forall in Hgiven.
  rewrite dom_union_L, dom_list_to_map_L, Hws.
  split.
  - intros [Hreq Hdom]. split; [|split].
    + rewrite Forall_forall. intros [k v] Hkv. simpl.
      intros Hk%Hdom%elem_of_list_to_set.
      apply (Hsettings k Hk). rewrite <- Hws.
      by apply (list_elem_of_fmap_2 fst _ (k, v)).
    + apply union_least; intros k Hk; apply elem_of_list_to_set.
      * apply elem_of_list_to_set in Hk. by apply Hwritten.
      * apply Hdom, elem_of_list_to_set in Hk. by apply Hsettings.
    + rewrite Forall_forall. intros k Hk.
      rewrite elem_of_union, elem_of_list_to_set.
      apply elem_of_app in Hk as [Hk|Hk].
      * right. by apply Hreq, elem_of_list_to_set.
      * left. by apply Hgiven.
  - intros (Hnew & Hdom & Hreq).
    rewrite Forall_forall in Hnew. rewrite Forall_forall in Hreq. split.
    + intros k Hk%elem_of_list_to_set.
      assert (k ∈ S3_required ++ ["team_id"; "batch_export_id"]) as Hk'%Hreq
        by (apply elem_of_app; by left).
      apply elem_of_union in Hk' as [Hk'%elem_of_list_to_set|Hk']; [|done].
      by destruct (Hsettings k (Hrequired k Hk)).
    + intros k Hk. apply elem_of_list_to_set.
      assert (k ∈ S3_fields) as Hfield.
      { apply (elem_of_list_to_set (C := gset string)), Hdom, elem_of_union. by right. }
      destruct (Hcover k Hfield) as [Hin|Hin]; [done|].
      rewrite <- Hws in Hin.
      apply list_elem_of_fmap in Hin as ([k' v] & -> & Hkv).
      by destruct (Hnew _ Hkv).
Qed.

Ltac closed_list_fact := apply (bool_decide_unpack _); by vm_compute.


Lemma fits_S3_schedule_written v1 v2 (config : gmap string PyVal) :
  let written := [("team_id", v1); ("batch_export_id", v2)] in
  fits_S3_schedule config
  ↔ (Forall (λ kv, kv.1 ∉ dom config) written
     ∧ dom (list_to_map written ∪ config) ⊆ (list_to_set S3_fields : gset string)
     ∧ Forall (λ field, field ∈ dom (list_to_map written ∪ config))
         (S3_required ++ ["team_id"; "batch_export_id"])).
Proof.
  apply (fits_written ["team_id"; "batch_export_id"] S3_schedule_settings);
    [done|closed_list_fact..].
Qed.

(** *** Creating a schedule *)

(** X17: only [S3] is registered: for every other destination type
    [create_batch_export] raises the [KeyError] of the registry before it
    does anything. *)
Theorem create_batch_export_unregistered e (w : World) :
  destination_type (be_destination e) ≠ "S3" →
  create_batch_export e w
  = (Raise (KeyError (destination_type (be_destination e))), w).
Proof.
  intros Htype. unfold create_batch_export, bind, lift, getitem, DESTINATION_WORKFLOWS.
  by rewrite lookup_singleton_ne.
Qed.

Lemma create_batch_export_S3 e (w : World) :
  destination_type (be_destination e) = "S3" →
  create_batch_export e w
  = match S3_input_of [("team_id", VInt (team_id (be_team e)));
                       ("batch_export_id", VStr (str (be_id e)))]
            (destination_config (be_destination e)) with
    | Raise ex => (Raise ex, w)
    | Ok arg =>
        create_schedule (str (be_id e))
          {| schedule_action :=
               {| action_workflow := "s3-export";
                  action_args := asdict arg;
                  action_id := str (be_id e);
                  action_task_queue := TEMPORAL_TASK_QUEUE;
                  action_search_attributes := search_attributes_of e |};
             schedule_spec := mkScheduleSpec;
             schedule_state := schedule_state (schedule_of e) |}
          (search_attributes_of e) w
    end.
Proof.
  intros Htype.
  unfold create_batch_export, bind, lift, getitem, DESTINATION_WORKFLOWS,
    search_attributes_of, schedule_of.
  rewrite Htype, lookup_singleton_eq. unfold S3_input_of.
  by destruct (result_bind _ _).
Qed.


Lemma create_batch_export_is_create_schedule e (w : World) :
  destination_type (be_destination e) = "S3" →
  fits_S3_schedule (destination_config (be_destination e)) →
  create_batch_export e w
  = create_schedule (str (be_id e)) (schedule_of e) (search_attributes_of e) w.
Proof.
  intros Htype Hfits. rewrite create_batch_export_S3 by done.
  destruct (S3_input_of_outcome
              [("team_id", VInt (team_id (be_team e)));
               ("batch_export_id", VStr (str (be_id e)))]
              (destination_config (be_destination e)))
    as [[_ (i & -> & Hdict)]|[Hunfit _]].
  - simpl. by rewrite Hdict.
  - destruct Hunfit. exact (proj1 (fits_S3_schedule_written _ _ _) Hfits).
Qed.


(** *** The schedule of an export *)

Lemma only_addresses_create_batch_export e (w : World) :
  only_addresses (str (be_id e)) w (create_batch_export e w).2.
Proof.
  destruct (create_batch_export_requests e w)
    as [Hnone|(schedule & attributes & _ & Hone)].
  - exists []. by rewrite app_nil_r.
  - exists [CreateSchedule (str (be_id e)) schedule attributes].
    split; [done|]. by repeat constructor.
Qed.

(** C8: the identifier of the export is the identifier of its schedule.  For
    an export of type S3 whose configuration fits, with the engine reachable
    and the id free, [create_batch_export] succeeds, sends exactly the
    creation of [schedule_of e] under [str(batch_export.id)], and the engine
    holds that schedule under that id, its action with the same id; every
    schedule under another id is as before.  When the id is taken, the
    creation raises [ScheduleAlreadyExists] and the schedules are as before.
    On any export and world, the requests [create_batch_export] adds are all
    for the export's id; pause, unpause, delete and describe each send exactly
    one request, for the id they were given. *)
Theorem schedule_id_is_batch_export_id e (w : World) :
  destination_type (be_destination e) = "S3" →
  fits_S3_schedule (destination_config (be_destination e)) →
  available (temporal w) = true →
  schedules (temporal w) !! str (be_id e) = None →
  create_batch_export e w
  = (Ok (),
     {| db := db w;
        temporal :=
          {| schedules := <[str (be_id e) := schedule_of e]> (schedules (temporal w));
             requests :=
               requests (temporal w)
               ++ [CreateSchedule (str (be_id e)) (schedule_of e)
                     (search_attributes_of e)];
             available := true |} |})
  ∧ action_id (schedule_action (schedule_of e)) = str (be_id e)
  ∧ schedules (temporal (create_batch_export e w).2) !! str (be_id e)
    = Some (schedule_of e)
  ∧ (∀ e', be_id e' ≠ be_id e →
       schedules (temporal (create_batch_export e w).2) !! str (be_id e')
       = schedules (temporal w) !! str (be_id e'))
  ∧ (∀ e' (w' : World),
       destination_type (be_destination e') = "S3" →
       fits_S3_schedule (destination_config (be_destination e')) →
       available (temporal w') = true →
       is_Some (schedules (temporal w') !! str (be_id e')) →
       create_batch_export e' w'
       = (Raise (RPCError ALREADY_EXISTS),
          {| db := db w';
             temporal :=
               sent (CreateSchedule (str (be_id e')) (schedule_of e')
                       (search_attributes_of e'))
                 (temporal w') |}))
  ∧ (∀ e' (w' : World),
       only_addresses (str (be_id e')) w' (create_batch_export e' w').2)
  ∧ (∀ batch_export_id note (w' : World),
       requests (temporal (pause_batch_export batch_export_id note w').2)
       = requests (temporal w') ++ [PauseSchedule batch_export_id note])
  ∧ (∀ batch_export_id note (w' : World),
       requests (temporal (unpause_batch_export batch_export_id note w').2)
       = requests (temporal w') ++ [UnpauseSchedule batch_export_id note])
  ∧ (∀ schedule_id (w' : World),
       requests (temporal (delete_schedule schedule_id w').2)
       = requests (temporal w') ++ [DeleteSchedule schedule_id])
  ∧ (∀ schedule_id (w' : World),
       requests (temporal (describe_schedule schedule_id w').2)
       = requests (temporal w') ++ [DescribeSchedule schedule_id]).
Proof.
  intros Htype Hfits Hup Hfree.
  assert (create_batch_export e w
          = (Ok (),
             {| db := db w;
                temporal :=
                  {| schedules :=
                       <[str (be_id e) := schedule_of e]> (schedules (temporal w));
                     requests :=
                       requests (temporal w)
                       ++ [CreateSchedule (str (be_id e)) (schedule_of e)
                             (search_attributes_of e)];
                     available := true |} |})) as Hcreate.
  { rewrite create_batch_export_is_create_schedule by done.
    unfold create_schedule, rpc, engine_create_schedule, with_schedules, sent.
    simpl. by rewrite Hup, Hfree. }
  rewrite Hcreate. simpl.
  split; [done|]. split; [done|].
  split; [apply lookup_insert_eq|].
  split.
  { intros e' Hother. apply lookup_insert_ne. unfold str. congruence. }
  split.
  { intros e' w' Htype' Hfits' Hup' [s Htaken].
    rewrite create_batch_export_is_create_schedule by done.
    unfold create_schedule, rpc, engine_create_schedule, sent.
    simpl. by rewrite Hup', Htaken. }
  split; [apply only_addresses_create_batch_export|].
  split.
  { intros. by rewrite pause_batch_export_unfold, pause_schedule_requests. }
  split.
  { intros. by rewrite unpause_batch_export_unfold, unpause_schedule_requests. }
  split; [apply delete_schedule_requests|apply describe_schedule_requests].
Qed.

(** *** The input of a backfill *)





(** *** The activities *)

Section Activities.
Context `{Worker}.

(** X22: the activity that is to update the status of a run never does: it
    raises the [ValueError] of [UUID] on a text that is no UUID, else the
    [TypeError] of a call with the keyword [id], which
    [update_batch_export_run_status] does not have; the world is as
    before. *)
Theorem update_export_run_status_never_updates inputs (w : World) :
  update_export_run_status inputs w
  = (match UUID_of (inputs_id inputs) with
     | Ok _ => Raise TypeError
     | Raise e => Raise e
     end, w).
Proof.
  unfold update_export_run_status, bind, lift.
  by destruct (UUID_of (inputs_id inputs)).
Qed.

Lemma create_export_run_unfold inputs (w : World) :
  create_export_run inputs w
  = match UUID_of (inputs_batch_export_id inputs) with
    | Raise e => (Raise e, w)
    | Ok batch_export_id =>
        if allow_async_unsafe then
          match create_batch_export_run (inputs_team_id inputs)
                  (info_workflow_id activity_info) (info_workflow_run_id activity_info)
                  batch_export_id
                  (inputs_data_interval_start inputs) (inputs_data_interval_end inputs)
                  w with
          | (Ok run, w') => (Ok (str (run_pk run)), w')
          | (Raise e, w') => (Raise e, w')
          end
        else (Raise SynchronousOnlyOperation, w)
    end.
Proof.
  unfold create_export_run, bind, lift, ret, from_async_def.
  destruct (UUID_of (inputs_batch_export_id inputs)); [|done]. simpl.
  destruct allow_async_unsafe; [|done].
  by destruct (create_batch_export_run _ _ _ _ _ _ w) as [[] ?].
Qed.

Lemma qs_get_holds {A} model (P : A → Prop) `{∀ x, Decision (P x)} rows r :
  qs_get model P rows = Ok r → P r ∧ r ∈ rows.
Proof.
  unfold qs_get. destruct (filter P rows) as [|x [|y rest]] eqn:Hf; [done| |done].
  intros [= ->]. apply (list_elem_of_filter P). rewrite Hf. left.
Qed.

(** X23: with Django's guard on, as it is by default, [create_export_run]
    never inserts a record: it raises the [ValueError] of [UUID] on a text
    that is no UUID, else [SynchronousOnlyOperation], because the [async def]
    calls the synchronous [create_batch_export_run] as it is; the world is as
    before.  With the guard off, when it returns, what it returns is the
    string form of the primary key of the one record it has inserted, a key
    no record had before; that record belongs to the execution the activity
    runs in, and holds the parsed id and bounds of the inputs. *)
Theorem create_export_run_under_the_guard inputs (w : World) :
  (allow_async_unsafe = false →
   create_export_run inputs w
   = (match UUID_of (inputs_batch_export_id inputs) with
      | Ok _ => Raise SynchronousOnlyOperation
      | Raise e => Raise e
      end, w))
  ∧ (allow_async_unsafe = true →
     ∀ id (w' : World),
       create_export_run inputs w = (Ok id, w') →
       ∃ batch_export_id interval_start interval_end,
         UUID_of (inputs_batch_export_id inputs) = Ok batch_export_id
         ∧ fromisoformat (inputs_data_interval_start inputs) = Ok interval_start
         ∧ fromisoformat (inputs_data_interval_end inputs) = Ok interval_end
         ∧ id = str (new_pk (batch_export_runs (db w)))
         ∧ (new_pk (batch_export_runs (db w)) ∉ run_pk <$> batch_export_runs (db w))
         ∧ w' = {| db := {| teams := teams (db w);
                            batch_exports := batch_exports (db w);
                            batch_export_runs :=
                              batch_export_runs (db w)
                              ++ [{| run_pk := new_pk (batch_export_runs (db w));
                                     run_team := Some (inputs_team_id inputs);
                                     run_batch_export_id := batch_export_id;
                                     run_workflow_id :=
                                       Some (info_workflow_id activity_info);
                                     run_run_id :=
                                       Some (info_workflow_run_id activity_info);
                                     run_status := STARTING;
                                     run_data_interval_start := Some interval_start;
                                     run_data_interval_end := Some interval_end |}] |};
                   temporal := temporal w |}).
Proof.
  rewrite create_export_run_unfold. split; intros ->.
  { by destruct (UUID_of (inputs_batch_export_id inputs)). }
  intros id w'.
  destruct (UUID_of (inputs_batch_export_id inputs)) as [batch_export_id|]; [|done].
  destruct (create_batch_export_run _ _ _ _ _ _ w) as [[run|] w1] eqn:Hcreated; [|done].
  intros [= <- <-].
  apply create_batch_export_run_Ok in Hcreated
    as (t & ds & de & [Ht _]%qs_get_holds & Hds & Hde & _ & -> & ->).
  exists batch_export_id, ds, de. simpl. rewrite Ht.
  repeat split; try done. apply new_pk_fresh.
Qed.

(** X24: when [create_export_run] raises, whether on the id, the team, a bound or
    the insert, the world is as before. *)
Theorem create_export_run_all_or_nothing inputs (w : World) e :
  (create_export_run inputs w).1 = Raise e →
  (create_export_run inputs w).2 = w.
Proof.
  rewrite create_export_run_unfold.
  destruct (UUID_of (inputs_batch_export_id inputs)) as [batch_export_id|]; [|done].
  destruct allow_async_unsafe; [|done].
  destruct (create_batch_export_run_world (inputs_team_id inputs)
              (info_workflow_id activity_info) (info_workflow_run_id activity_info)
              batch_export_id (inputs_data_interval_start inputs)
              (inputs_data_interval_end inputs) w)
    as [[e' ->]|(r & -> & _)]; done.
Qed.

End Activities.

End Coverage.

(** ** The further properties on the small installation *)

Lemma create_batch_export_run_all_or_nothing_witness :
  (create_batch_export_run 1 "E1-2023-01-02T00:00:00Z" "attempt-1" "E1"
     "yesterday" Fixture.jan2 Fixture.w_done).1
  = Raise (ValueError "Invalid isoformat string")
  ∧ (create_batch_export_run 1 "E1-2023-01-02T00:00:00Z" "attempt-1" "E1"
       "yesterday" Fixture.jan2 Fixture.w_done).2
    = Fixture.w_done.
Proof.
  assert ((create_batch_export_run 1 "E1-2023-01-02T00:00:00Z" "attempt-1" "E1"
             "yesterday" Fixture.jan2 Fixture.w_done).1
          = Raise (ValueError "Invalid isoformat string")) as Hraised
    by (vm_compute; reflexivity).
  split; [exact Hraised|].
  exact (create_batch_export_run_all_or_nothing _ _ _ _ _ _ _ _ Hraised).
Defined.

Lemma create_batch_export_run_missing_team_witness :
  (9%Z ∉ team_id <$> teams (db Fixture.w_done))
  ∧ create_batch_export_run 9 "E1-2023-01-02T00:00:00Z" "attempt-1" "E1"
      Fixture.jan1 Fixture.jan2 Fixture.w_done
    = (Raise (DoesNotExist "Team"), Fixture.w_done).
Proof.
  assert (9%Z ∉ team_id <$> teams (db Fixture.w_done)) as Hno
    by (apply (bool_decide_unpack _); by vm_compute).
  split; [exact Hno|].
  exact (create_batch_export_run_missing_team 9 _ _ _ _ _ Fixture.w_done Hno).
Defined.

Lemma update_reaches_the_created_run_witness :
  create_batch_export_run 1 "E1-2023-01-02T00:00:00Z" "attempt-1" "E1"
    Fixture.jan1 Fixture.jan2 Fixture.w0
  = (Ok (Fixture.reported_run "0"),
     {| db := Fixture.store [Fixture.reported_run "0"];
        temporal := Fixture.engine true |})
  ∧ update_batch_export_run_status (run_pk (Fixture.reported_run "0")) COMPLETED
      {| db := Fixture.store [Fixture.reported_run "0"];
         temporal := Fixture.engine true |}
    = (Ok (),
       {| db := {| teams := teams (db Fixture.w0);
                   batch_exports := batch_exports (db Fixture.w0);
                   batch_export_runs :=
                     batch_export_runs (db Fixture.w0)
                     ++ [with_status COMPLETED (Fixture.reported_run "0")] |};
          temporal := temporal Fixture.w0 |}).
Proof.
  assert (create_batch_export_run 1 "E1-2023-01-02T00:00:00Z" "attempt-1" "E1"
            Fixture.jan1 Fixture.jan2 Fixture.w0
          = (Ok (Fixture.reported_run "0"),
             {| db := Fixture.store [Fixture.reported_run "0"];
                temporal := Fixture.engine true |})) as Hcreated
    by (vm_compute; reflexivity).
  split; [exact Hcreated|].
  exact (update_reaches_the_created_run _ _ _ _ _ _ COMPLETED _ _ _ Hcreated).
Defined.

Lemma update_batch_export_run_status_one_record_witness :
  (NoDup (run_pk <$> batch_export_runs (db Fixture.w_done))
   ∧ "R1" ∈ run_pk <$> batch_export_runs (db Fixture.w_done))
  ∧ status_of "R1" (update_batch_export_run_status "R1" FAILED Fixture.w_done).2
    = [FAILED].
Proof.
  assert (NoDup (run_pk <$> batch_export_runs (db Fixture.w_done))) as Hkeys
    by (apply (bool_decide_unpack _); by vm_compute).
  assert ("R1" ∈ run_pk <$> batch_export_runs (db Fixture.w_done)) as Hin
    by (simpl; left).
  split; [exact (conj Hkeys Hin)|].
  exact (update_batch_export_run_status_one_record "R1" FAILED Fixture.w_done
           Hkeys Hin).
Defined.

Lemma backfill_export_missing_export_witness :
  ("E9" ∉ be_id <$> batch_exports (db Fixture.w0))
  ∧ backfill_export "E9" (Some Fixture.jan1) (Some Fixture.jan2) Fixture.w0
    = (Raise (DoesNotExist "BatchExport"), Fixture.w0).
Proof.
  assert ("E9" ∉ be_id <$> batch_exports (db Fixture.w0)) as Hno
    by (apply (bool_decide_unpack _); by vm_compute).
  split; [exact Hno|].
  exact (backfill_export_missing_export "E9" _ _ Fixture.w0 Hno).
Defined.

Lemma E1_is_stored :
  filter (λ x, be_id x = be_id Fixture.E1) (batch_exports (db Fixture.w0))
  = [Fixture.E1].
Proof. vm_compute. reflexivity. Qed.


Lemma backfill_export_inserts_first_witness :
  filter (λ x, be_id x = be_id Fixture.E1) (batch_exports (db Fixture.w0))
  = [Fixture.E1]
  ∧ db (backfill_export (be_id Fixture.E1) (Some Fixture.jan1) None Fixture.w0).2
    = {| teams := teams (db Fixture.w0);
         batch_exports := batch_exports (db Fixture.w0);
         batch_export_runs :=
           batch_export_runs (db Fixture.w0)
           ++ [{| run_pk := new_pk (batch_export_runs (db Fixture.w0));
                  run_team := None;
                  run_batch_export_id := be_id Fixture.E1;
                  run_workflow_id := None;
                  run_run_id := None;
                  run_status := STARTING;
                  run_data_interval_start := Some Fixture.jan1;
                  run_data_interval_end := None |}] |}
  ∧ schedules
      (temporal (backfill_export (be_id Fixture.E1) (Some Fixture.jan1) None
                   Fixture.w0).2)
    = schedules (temporal Fixture.w0).
Proof.
  split; [exact E1_is_stored|].
  exact (backfill_export_inserts_first Fixture.E1 (Some Fixture.jan1) None
           Fixture.w0 E1_is_stored).
Defined.

Lemma asdict_of_new_S3BatchExportInputs_witness :
  ∃ i,
    new_S3BatchExportInputs Fixture.s3_keywords = Ok i
    ∧ asdict_S3 i = Fixture.s3_keywords ∪ S3_defaults.
Proof.
  eexists. split; [vm_compute; reflexivity|].
  apply (asdict_of_new_S3BatchExportInputs Fixture.s3_keywords).
  vm_compute. reflexivity.
Defined.

Lemma create_batch_export_unregistered_witness :
  destination_type (be_destination Fixture.E2) ≠ "S3"
  ∧ create_batch_export Fixture.E2 Fixture.w0
    = (Raise (KeyError (destination_type (be_destination Fixture.E2))), Fixture.w0).
Proof.
  assert (destination_type (be_destination Fixture.E2) ≠ "S3") as Htype
    by discriminate.
  split; [exact Htype|].
  exact (create_batch_export_unregistered Fixture.E2 Fixture.w0 Htype).
Defined.

Lemma E1_fits_S3_schedule : fits_S3_schedule Fixture.s3_config.
Proof. split; apply (bool_decide_unpack _); by vm_compute. Qed.




Lemma schedule_id_is_batch_export_id_witness :
  (destination_type (be_destination Fixture.E1) = "S3"
   ∧ fits_S3_schedule (destination_config (be_destination Fixture.E1))
   ∧ available (temporal Fixture.w0) = true
   ∧ schedules (temporal Fixture.w0) !! str (be_id Fixture.E1) = None)
  ∧ create_batch_export Fixture.E1 Fixture.w0
    = (Ok (),
       {| db := db Fixture.w0;
          temporal :=
            {| schedules :=
                 <[str (be_id Fixture.E1) := schedule_of Fixture.E1]>
                   (schedules (temporal Fixture.w0));
               requests :=
                 requests (temporal Fixture.w0)
                 ++ [CreateSchedule (str (be_id Fixture.E1)) (schedule_of Fixture.E1)
                       (search_attributes_of Fixture.E1)];
               available := true |} |}).
Proof.
  split; [exact (conj eq_refl (conj E1_fits_S3_schedule (conj eq_refl eq_refl)))|].
  exact (proj1 (schedule_id_is_batch_export_id Fixture.E1 Fixture.w0 eq_refl
                  E1_fits_S3_schedule eq_refl eq_refl)).
Defined.



Lemma create_export_run_under_the_guard_witness :
  (@allow_async_unsafe Fixture.worker = false
   ∧ @create_export_run Fixture.python Fixture.worker Fixture.report_E1 Fixture.w0
     = (Raise SynchronousOnlyOperation, Fixture.w0))
  ∧ (@allow_async_unsafe Fixture.worker_unsafe = true
     ∧ @create_export_run Fixture.python Fixture.worker_unsafe Fixture.report_E1
         Fixture.w0
       = (Ok "0", {| db := Fixture.store [Fixture.reported_run "0"];
                     temporal := Fixture.engine true |})
     ∧ ∃ batch_export_id interval_start interval_end,
         @UUID_of Fixture.worker_unsafe (inputs_batch_export_id Fixture.report_E1)
         = Ok batch_export_id
         ∧ @fromisoformat Fixture.python (inputs_data_interval_start Fixture.report_E1)
           = Ok interval_start
         ∧ @fromisoformat Fixture.python (inputs_data_interval_end Fixture.report_E1)
           = Ok interval_end
         ∧ "0" = str (new_pk (batch_export_runs (db Fixture.w0)))
         ∧ (new_pk (batch_export_runs (db Fixture.w0))
            ∉ run_pk <$> batch_export_runs (db Fixture.w0))
         ∧ {| db := Fixture.store [Fixture.reported_run "0"];
              temporal := Fixture.engine true |}
           = {| db := {| teams := teams (db Fixture.w0);
                         batch_exports := batch_exports (db Fixture.w0);
                         batch_export_runs :=
                           batch_export_runs (db Fixture.w0)
                           ++ [{| run_pk := new_pk (batch_export_runs (db Fixture.w0));
                                  run_team := Some (inputs_team_id Fixture.report_E1);
                                  run_batch_export_id := batch_export_id;
                                  run_workflow_id :=
                                    Some (info_workflow_id
                                            (@activity_info Fixture.worker_unsafe));
                                  run_run_id :=
                                    Some (info_workflow_run_id
                                            (@activity_info Fixture.worker_unsafe));
                                  run_status := STARTING;
                                  run_data_interval_start := Some interval_start;
                                  run_data_interval_end := Some interval_end |}] |};
                temporal := temporal Fixture.w0 |}).
Proof.
  assert (@create_export_run Fixture.python Fixture.worker_unsafe Fixture.report_E1
            Fixture.w0
          = (Ok "0", {| db := Fixture.store [Fixture.reported_run "0"];
                        temporal := Fixture.engine true |})) as Hreturned
    by (vm_compute; reflexivity).
  split.
  - split; [reflexivity|].
    exact (proj1 (@create_export_run_under_the_guard Fixture.python Fixture.worker
                    Fixture.report_E1 Fixture.w0) eq_refl).
  - split; [reflexivity|]. split; [exact Hreturned|].
    exact (proj2 (@create_export_run_under_the_guard Fixture.python
                    Fixture.worker_unsafe Fixture.report_E1 Fixture.w0)
             eq_refl "0" _ Hreturned).
Defined.

Lemma create_export_run_all_or_nothing_witness :
  (@create_export_run Fixture.python Fixture.worker Fixture.report_nothing
     Fixture.w_done).1
  = Raise (ValueError "badly formed hexadecimal UUID string")
  ∧ (@create_export_run Fixture.python Fixture.worker Fixture.report_nothing
       Fixture.w_done).2
    = Fixture.w_done.
Proof.
  assert ((@create_export_run Fixture.python Fixture.worker Fixture.report_nothing
             Fixture.w_done).1
          = Raise (ValueError "badly formed hexadecimal UUID string")) as Hraised
    by (vm_compute; reflexivity).
  split; [exact Hraised|].
  exact (@create_export_run_all_or_nothing Fixture.python Fixture.worker
           Fixture.report_nothing Fixture.w_done _ Hraised).
Defined.
